(** * Oulu Hotels Dashboard: the data pipeline of [app.py]

    A shallow embedding of the load / filter / metrics pipeline of the
    dashboard script, and the properties of its specification.

    Modelling conventions.
    - A pandas column cell that may be NaN / NaT is an [option]; [None] is the
      missing value.  Every comparison against a missing value is [false], as
      in pandas.
    - Decimal quantities (prices, scores, rates) are rationals [Q] with exact
      arithmetic; [round(x, 2)] is rounding to the nearest hundredth with ties
      to even.  The script computes in binary floating point, which agrees
      with this up to its rounding errors and the direction taken next to a
      tie; the statements on metric values allow for both.  Equalities
      between computed rationals are stated with [==].
    - A timestamp is an integer [Z], counting nanoseconds.
    - File names are POSIX paths, as [glob.glob('csv_files/*.csv')] returns
      them; [os.path.basename] is [posixpath.basename].
    - A [DataFrame] is the list of its rows, in index order. *)

From Stdlib Require Import ZArith QArith Qround Qminmax Qabs Lia Lqa.
From Stdlib Require Import List Permutation Sorted Bool Ascii String.
Import ListNotations.

Set Implicit Arguments.

Local Open Scope string_scope.
Local Open Scope list_scope.

(** ** Python strings: [in] and [os.path.basename] *)

Module PyStr.

(** [pat in s] on Python strings: [pat] occurs at some offset of [s]. *)
Fixpoint contains (pat s : string) : bool :=
  String.prefix pat s ||
  match s with
  | EmptyString => false
  | String _ s' => contains pat s'
  end.

(** The relation [contains] decides. *)
Definition Substring (pat s : string) : Prop :=
  exists pre suf, s = (pre ++ pat ++ suf)%string.

(** [posixpath.basename]: [i = p.rfind('/') + 1; return p[i:]].  The scan
    keeps in [cur] the text that follows the last separator seen so far. *)
Fixpoint basename_from (cur p : string) : string :=
  match p with
  | EmptyString => cur
  | String c p' =>
      if Ascii.eqb c "/" then basename_from p' p' else basename_from cur p'
  end.

Definition basename (p : string) : string := basename_from p p.

(** No character of the string is the path separator. *)
Fixpoint no_sep (s : string) : Prop :=
  match s with
  | EmptyString => True
  | String c s' => c <> "/"%char /\ no_sep s'
  end.

End PyStr.

(** ** [get_scrape_time] *)

Definition get_scrape_time (filename : string) : string :=
  let basename := PyStr.basename filename in
  if PyStr.contains "Mor" basename then "Morning"
  else if PyStr.contains "Eve" basename then "Evening"
  else "Unknown".

(** ** Decimal rounding *)

Module Num.
Local Open Scope Q_scope.

(** Nearest integer, ties to even. *)
Definition rint (q : Q) : Z :=
  let f := Qfloor q in
  match Qcompare (q - inject_Z f) (1 # 2) with
  | Lt => f
  | Gt => (f + 1)%Z
  | Eq => if Z.even f then f else (f + 1)%Z
  end.

(** [round(q, 2)]. *)
Definition round2 (q : Q) : Q := inject_Z (rint (q * 100)) / 100.

Definition sum (l : list Q) : Q := fold_right Qplus 0 l.

(** [Series.mean()] of a series without missing values. *)
Definition mean (l : list Q) : Q := sum l / inject_Z (Z.of_nat (List.length l)).

(** Rounding respects the equality of rationals. *)
#[global] Instance rint_comp : Proper (Qeq ==> eq) rint.
Proof.
  intros q q' E. unfold rint.
  rewrite (Qfloor_comp _ _ E).
  now rewrite (Qcompare_comp (q - inject_Z (Qfloor q')) (q' - inject_Z (Qfloor q'))
                 ltac:(now rewrite E) (1 # 2) (1 # 2) ltac:(reflexivity)).
Qed.

#[global] Instance round2_comp : Proper (Qeq ==> Qeq) round2.
Proof. intros q q' E. unfold round2. now rewrite E. Qed.

End Num.

(** ** pandas columns and frames *)

Module Pd.

(** [Series.dropna()]. *)
Fixpoint dropna {A : Type} (series : list (option A)) : list A :=
  match series with
  | [] => []
  | Some v :: rest => v :: dropna rest
  | None :: rest => dropna rest
  end.

Definition notna {A : Type} (cell : option A) : bool :=
  match cell with Some _ => true | None => false end.

Section Unique.
Variable A : Type.
Variable eqb : A -> A -> bool.

(** [Series.unique()]: the distinct values in order of first appearance. *)
Fixpoint unique (l : list A) : list A :=
  match l with
  | [] => []
  | x :: xs => x :: filter (fun y => negb (eqb x y)) (unique xs)
  end.

(** Membership test with [eqb]. *)
Definition mem (x : A) (l : list A) : bool := existsb (eqb x) l.

(** Identity of cells for [unique]: all missing values are one value. *)
Definition cell_eqb (x y : option A) : bool :=
  match x, y with
  | Some a, Some b => eqb a b
  | None, None => true
  | _, _ => false
  end.

(** The elementwise [==] of a column against a value: a missing value on
    either side compares unequal. *)
Definition cell_eq (x y : option A) : bool :=
  match x, y with
  | Some a, Some b => eqb a b
  | _, _ => false
  end.

(** [Series.nunique()]: missing values are not counted. *)
Definition nunique (series : list (option A)) : nat :=
  List.length (unique (dropna series)).

(** [Series.isin(values)]. *)
Definition isin (cell : option A) (values : list A) : bool :=
  match cell with
  | Some v => mem v values
  | None => false
  end.
End Unique.

(** [column >= v] and [column <= v] on a numeric column. *)
Definition Qge_cell (cell : option Q) (v : Q) : bool :=
  match cell with Some p => Qle_bool v p | None => false end.

Definition Qle_cell (cell : option Q) (v : Q) : bool :=
  match cell with Some p => Qle_bool p v | None => false end.

(** The same on a timestamp column. *)
Definition Zge_cell (cell : option Z) (v : Z) : bool :=
  match cell with Some d => (v <=? d)%Z | None => false end.

Definition Zle_cell (cell : option Z) (v : Z) : bool :=
  match cell with Some d => (d <=? v)%Z | None => false end.

(** [Series.min()] / [Series.max()], skipping missing values; [None] when
    there is no value. *)
Definition Zmin_col (series : list (option Z)) : option Z :=
  match dropna series with
  | [] => None
  | d :: ds => Some (fold_left Z.min ds d)
  end.

Definition Zmax_col (series : list (option Z)) : option Z :=
  match dropna series with
  | [] => None
  | d :: ds => Some (fold_left Z.max ds d)
  end.

Definition Qmin_list (p : Q) (ps : list Q) : Q := fold_left Qmin ps p.
Definition Qmax_list (p : Q) (ps : list Q) : Q := fold_left Qmax ps p.

(** Python [sorted] on integers. *)
Fixpoint insert (x : Z) (l : list Z) : list Z :=
  match l with
  | [] => [x]
  | y :: l' => if (x <=? y)%Z then x :: l else y :: insert x l'
  end.

Definition sorted (l : list Z) : list Z := fold_right insert [] l.

End Pd.

(** ** The base table *)

(** One row of a CSV file as [pd.read_csv] delivers it. *)
Record RawRow := mkRawRow {
  raw_name : option string;
  raw_nights : Z;
  raw_persons : Z;
  raw_price : string;
  raw_review_score : string;
  raw_distance : string;
  raw_price_date : string
}.

(** One row of the combined, cleaned frame returned by [load_data]. *)
Record Row := mkRow {
  name : option string;
  nights : Z;
  persons : Z;
  price : option Q;
  review_score : option Q;
  distance : option Q;
  price_date : string;
  scrape_time : string;
  price_date_dt : option Z;
  weekday : option string
}.

Definition DataFrame := list Row.

(** [df.empty]. *)
Definition empty (df : DataFrame) : bool :=
  match df with [] => true | _ :: _ => false end.

(** The pandas conversions used by the loader; they are library code, taken
    as an interface. *)
Class Pandas := {
  to_numeric : string -> option Q;      (* pd.to_numeric(errors='coerce') *)
  (* pd.to_datetime(column, dayfirst=True, errors='coerce'): the parse of
     one cell of the column; the column fixes the format that is tried. *)
  to_datetime : list string -> string -> option Z;
  day_name : Z -> string                (* Series.dt.day_name() *)
}.

(** A file found by [glob.glob] together with what [pd.read_csv] does on it:
    it raises ([inl], the text of the exception) or yields rows ([inr]). *)
Record CsvFile := mkCsvFile {
  path : string;
  read_csv : string + list RawRow
}.

(** [pd.read_csv] raises on the file. *)
Definition unreadable (file : CsvFile) : Prop :=
  exists e, read_csv file = inl e.

(** ** [load_data] *)

Section Loader.
Context `{Pandas}.

(** The [for file in files] loop: the messages passed to [st.error], and
    the list [dfs] of the frames read, each row paired with the
    [scrape_time] column value of its file. *)
Fixpoint read_files (files : list CsvFile)
  : list string * list (list (RawRow * string)) :=
  match files with
  | [] => ([], [])
  | file :: rest =>
      let '(errors, dfs) := read_files rest in
      match read_csv file with
      | inr df =>
          (errors, map (fun r => (r, get_scrape_time (path file))) df :: dfs)
      | inl e =>
          (("Error loading " ++ path file ++ ": " ++ e)%string :: errors, dfs)
      end
  end.

(** Data cleaning and preprocessing of one row of [combined_data], whose
    ['price_date'] column is [dates]. *)
Definition clean (dates : list string) (tagged : RawRow * string) : Row :=
  let (r, st) := tagged in
  let dt := to_datetime dates (raw_price_date r) in
  {| name := raw_name r;
     nights := raw_nights r;
     persons := raw_persons r;
     price := to_numeric (raw_price r);
     review_score := to_numeric (raw_review_score r);
     distance := to_numeric (raw_distance r);
     price_date := raw_price_date r;
     scrape_time := st;
     price_date_dt := dt;
     weekday := option_map day_name dt |}.

Definition load_data (files : list CsvFile) : list string * DataFrame :=
  let '(errors, dfs) := read_files files in
  match dfs with
  | _ :: _ =>
      let combined_data := List.concat dfs in
      let dates := map (fun t => raw_price_date (fst t)) combined_data in
      (errors, map (clean dates) combined_data)
  | [] => (errors, [])                         (* pd.DataFrame() *)
  end.

End Loader.

(** ** The filters *)

(** The values the sidebar hands to the filter step. *)
Record Selections := mkSelections {
  selected_hotels : list string;
  selected_nights : Z;
  selected_persons : Z;
  price_range : Q * Q;
  date_range : list Z
}.

Definition filter_hotels (hotels : list string) (df : DataFrame) : DataFrame :=
  match hotels with
  | [] => df
  | _ :: _ => filter (fun r => Pd.isin String.eqb (name r) hotels) df
  end.

Definition filter_stay (n p : Z) (df : DataFrame) : DataFrame :=
  filter (fun r => (nights r =? n)%Z && (persons r =? p)%Z) df.

Definition filter_price (range : Q * Q) (df : DataFrame) : DataFrame :=
  filter (fun r => Pd.Qge_cell (price r) (fst range) &&
                   Pd.Qle_cell (price r) (snd range)) df.

Definition filter_dates (range : list Z) (df : DataFrame) : DataFrame :=
  match range with
  | [start_date; end_date] =>
      filter (fun r => Pd.Zge_cell (price_date_dt r) start_date &&
                       Pd.Zle_cell (price_date_dt r) end_date) df
  | _ => df
  end.

Definition filtered_data (data : DataFrame) (sel : Selections) : DataFrame :=
  let fd := filter_hotels (selected_hotels sel) data in
  let fd := filter_stay (selected_nights sel) (selected_persons sel) fd in
  let fd := filter_price (price_range sel) fd in
  filter_dates (date_range sel) fd.

(** The boolean tests of the four steps, and their conjunction. *)
Definition keep_hotel (sel : Selections) (r : Row) : bool :=
  match selected_hotels sel with
  | [] => true
  | _ :: _ => Pd.isin String.eqb (name r) (selected_hotels sel)
  end.

Definition keep_stay (sel : Selections) (r : Row) : bool :=
  (nights r =? selected_nights sel)%Z && (persons r =? selected_persons sel)%Z.

Definition keep_price (sel : Selections) (r : Row) : bool :=
  Pd.Qge_cell (price r) (fst (price_range sel)) &&
  Pd.Qle_cell (price r) (snd (price_range sel)).

Definition keep_date (sel : Selections) (r : Row) : bool :=
  match date_range sel with
  | [start_date; end_date] =>
      Pd.Zge_cell (price_date_dt r) start_date &&
      Pd.Zle_cell (price_date_dt r) end_date
  | _ => true
  end.

Definition keep (sel : Selections) (r : Row) : bool :=
  keep_hotel sel r && keep_stay sel r && keep_price sel r && keep_date sel r.

(** Every row of the frame has a price. *)
Definition priced (df : DataFrame) : Prop :=
  Forall (fun r => Pd.notna (price r) = true) df.

(** ** The metrics *)

Local Open Scope Q_scope.

Definition safe_mean (series : list (option Q)) : Q :=
  let clean_series := Pd.dropna series in
  match clean_series with
  | _ :: _ => Num.round2 (Num.mean clean_series)
  | [] => 0
  end.

Definition Qnat (n : nat) : Q := inject_Z (Z.of_nat n).

Definition total_hotels (df : DataFrame) : nat :=
  Pd.nunique String.eqb (map name df).

(** [df.dropna(subset=['price'])['name'].nunique()]. *)
Definition hotels_with_prices (df : DataFrame) : nat :=
  Pd.nunique String.eqb (map name (filter (fun r => Pd.notna (price r)) df)).

Definition calculate_occupancy_rate (df : DataFrame) : Q :=
  if empty df then 0
  else
    if (0 <? total_hotels df)%nat
    then Num.round2 (Qnat (hotels_with_prices df) / Qnat (total_hotels df) * 100)
    else 0.

Record KeyMetrics := mkKeyMetrics {
  avg_review_score : Q;
  adr : Q;
  occupancy_rate : Q;
  revpar : Q
}.

Definition key_metrics (fd : DataFrame) : KeyMetrics :=
  let avg_review_score := safe_mean (map review_score fd) in
  let adr := safe_mean (map price fd) in
  let occupancy_rate := calculate_occupancy_rate fd in
  let revpar := Num.round2 (adr * (occupancy_rate / 100)) in
  mkKeyMetrics avg_review_score adr occupancy_rate revpar.

(** ** The series by date and scrape time *)

(** [fd[(fd['price_date_dt'] == date) & (fd['scrape_time'] == scrape_time)]]. *)
Definition subset_at (fd : DataFrame) (date : option Z) (st : string)
  : DataFrame :=
  filter (fun r => Pd.cell_eq Z.eqb (price_date_dt r) date &&
                   String.eqb (scrape_time r) st) fd.

Definition dates_of (fd : DataFrame) : list (option Z) :=
  Pd.unique (Pd.cell_eqb Z.eqb) (map price_date_dt fd).

Definition scrape_times_of (fd : DataFrame) : list string :=
  Pd.unique String.eqb (map scrape_time fd).

(** A record appended to [revpar_data] or [occupancy_data]; [value] is its
    ['revpar'], respectively ['occupancy_rate'], entry. *)
Record Point := mkPoint {
  point_date : option Z;
  point_scrape_time : string;
  value : Q
}.

Definition revpar_data (fd : DataFrame) : list Point :=
  flat_map (fun date =>
    flat_map (fun st =>
      let subset := subset_at fd date st in
      if empty subset then []
      else
        let avg_price := safe_mean (map price subset) in
        let occ_rate := calculate_occupancy_rate subset in
        let revpar_value := avg_price * (occ_rate / 100) in
        [mkPoint date st revpar_value])
      (scrape_times_of fd))
    (dates_of fd).

Definition occupancy_data (fd : DataFrame) : list Point :=
  flat_map (fun date =>
    flat_map (fun st =>
      let subset := subset_at fd date st in
      if empty subset then []
      else
        let occ_rate := calculate_occupancy_rate subset in
        [mkPoint date st occ_rate])
      (scrape_times_of fd))
    (dates_of fd).

(** ** The sidebar and the script *)

(** What the five sidebar widgets return. *)
Record Widgets := mkWidgets {
  multiselect : list string;
  selectbox_nights : Z;
  selectbox_persons : Z;
  slider : Q * Q;
  date_input : list Z
}.

Definition price_data (data : DataFrame) : list Q := Pd.dropna (map price data).

(** The slider exists only when some price is present; otherwise
    [price_range = (0, 1000)]. *)
Definition selections (data : DataFrame) (w : Widgets) : Selections :=
  {| selected_hotels := multiselect w;
     selected_nights := selectbox_nights w;
     selected_persons := selectbox_persons w;
     price_range :=
       match price_data data with
       | _ :: _ => slider w
       | [] => (0, 1000)
       end;
     date_range := date_input w |}.

Definition nights_options (data : DataFrame) : list Z :=
  Pd.sorted (Pd.unique Z.eqb (map nights data)).

Definition persons_options (data : DataFrame) : list Z :=
  Pd.sorted (Pd.unique Z.eqb (map persons data)).

(** Timestamps count nanoseconds; [midnight t] is [pd.Timestamp(t.date())],
    the start of the day of [t]. *)
Definition ns_per_day : Z := 86400000000000.

Definition midnight (t : Z) : Z := (t / ns_per_day * ns_per_day)%Z.

(** The widgets left untouched: [default=[]], [index=0],
    [value=(min_price, max_price)] and
    [value=(price_date_dt.min(), price_date_dt.max())].  The date input
    returns calendar dates, which the filter turns into timestamps again.
    There is no default when the table has no date, and none when its prices
    are all equal, because [st.slider] raises unless [min_value] is less than
    [max_value]. *)
Definition default_widgets (data : DataFrame) : option Widgets :=
  match Pd.Zmin_col (map price_date_dt data),
        Pd.Zmax_col (map price_date_dt data) with
  | Some dmin, Some dmax =>
      let untouched (range : Q * Q) :=
        {| multiselect := [];
           selectbox_nights := hd 0%Z (nights_options data);
           selectbox_persons := hd 0%Z (persons_options data);
           slider := range;
           date_input := [midnight dmin; midnight dmax] |} in
      match price_data data with
      | p :: ps =>
          let min_price := Pd.Qmin_list p ps in
          let max_price := Pd.Qmax_list p ps in
          if Qle_bool max_price min_price then None
          else Some (untouched (min_price, max_price))
      | [] => Some (untouched (0, 1000))
      end
  | _, _ => None
  end.

(** The test that the untouched sidebar amounts to: the least stay of the
    table, a price present, and a date present that is not after the
    midnight that starts the last day of the table. *)
Definition keep_default (data : DataFrame) (r : Row) : bool :=
  (nights r =? hd 0 (nights_options data))%Z &&
  (persons r =? hd 0 (persons_options data))%Z &&
  Pd.notna (price r) &&
  match price_date_dt r, Pd.Zmax_col (map price_date_dt data) with
  | Some d, Some dmax => (d <=? midnight dmax)%Z
  | _, _ => false
  end.

(** What one run of the script puts on the page below the sidebar. *)
Record View := mkView {
  metrics : KeyMetrics;
  charts : option (list Point * list Point);  (* None: the st.warning branch *)
  table : DataFrame
}.

(** A run ends at [st.stop()] after the messages shown so far, or renders. *)
Inductive Outcome :=
| Stopped (messages : list string)
| Rendered (messages : list string) (view : View).

Definition no_data_message : string :=
  "No data found. Please make sure CSV files are in the 'csv_files' folder.".

Section App.
Context `{Pandas}.

Definition app (files : list CsvFile) (w : Widgets) : Outcome :=
  let '(errors, data) := load_data files in
  if empty data then Stopped (errors ++ [no_data_message])
  else
    let fd := filtered_data data (selections data w) in
    Rendered errors
      {| metrics := key_metrics fd;
         charts := if empty fd then None
                   else Some (revpar_data fd, occupancy_data fd);
         table := fd |}.

End App.

(** ** The specification's formulations

    Definitions written after the wording of the specification, to be
    compared with the functions of the script. *)

Module Spec.

(** The distinct [hotel_name] values of a subset. *)
Definition distinct_hotels (df : DataFrame) : list string :=
  Pd.unique String.eqb (Pd.dropna (map name df)).

(** The hotel has at least one row with a non-null price. *)
Definition has_price (df : DataFrame) (hotel : string) : bool :=
  existsb (fun r => Pd.cell_eq String.eqb (name r) (Some hotel) &&
                    Pd.notna (price r)) df.

Definition priced_hotels (df : DataFrame) : list string :=
  filter (has_price df) (distinct_hotels df).

(** (distinct hotels with a price) / (distinct hotels) x 100, rounded to 2
    decimals; 0 when there is no distinct hotel. *)
Definition occupancy (df : DataFrame) : Q :=
  match distinct_hotels df with
  | [] => 0
  | _ :: _ =>
      Num.round2 (Qnat (List.length (priced_hotels df)) /
                  Qnat (List.length (distinct_hotels df)) * 100)
  end.

(** The same ratio without the final rounding. *)
Definition exact_occupancy (df : DataFrame) : Q :=
  match distinct_hotels df with
  | [] => 0
  | _ :: _ =>
      Qnat (List.length (priced_hotels df)) /
      Qnat (List.length (distinct_hotels df)) * 100
  end.

Definition count_notna (series : list (option Q)) : nat :=
  List.length (filter (@Pd.notna Q) series).

Definition sum_notna (series : list (option Q)) : Q :=
  fold_right (fun cell acc => match cell with
                              | Some v => v + acc
                              | None => acc
                              end) 0 series.

(** mean(non-null values). *)
Definition mean_notna (series : list (option Q)) : Q :=
  sum_notna series / Qnat (count_notna series).

Definition all_null {A : Type} (series : list (option A)) : Prop :=
  Forall (fun cell => cell = None) series.

(** Revenue per available unit computed from the unrounded mean price and
    the unrounded occupancy ratio. *)
Definition exact_revpar (df : DataFrame) : Q :=
  Num.round2 (mean_notna (map price df) * exact_occupancy df / 100).

(** The predicates of the filter specification on one row. *)
Definition hotel_ok (sel : Selections) (r : Row) : Prop :=
  selected_hotels sel = [] \/
  exists h, name r = Some h /\ In h (selected_hotels sel).

Definition stay_ok (sel : Selections) (r : Row) : Prop :=
  nights r = selected_nights sel /\ persons r = selected_persons sel.

Definition price_ok (sel : Selections) (r : Row) : Prop :=
  exists p, price r = Some p /\
            fst (price_range sel) <= p /\ p <= snd (price_range sel).

Definition date_ok (sel : Selections) (r : Row) : Prop :=
  forall start_date end_date,
    date_range sel = [start_date; end_date] ->
    exists d, price_date_dt r = Some d /\
              (start_date <= d)%Z /\ (d <= end_date)%Z.

Definition satisfies (sel : Selections) (r : Row) : Prop :=
  hotel_ok sel r /\ stay_ok sel r /\ price_ok sel r /\ date_ok sel r.

(** The series by date and scrape time: one row per non-empty partition of
    the product of the distinct dates and the distinct scrape times, with
    the scalar KPI formulas applied to the partition. *)
Record SeriesRow := mkSeriesRow {
  series_date : Z;
  series_scrape_time : string;
  series_adr : Q;
  series_occupancy_rate : Q;
  series_revpar : Q
}.

Definition distinct_dates (fd : DataFrame) : list Z :=
  Pd.unique Z.eqb (Pd.dropna (map price_date_dt fd)).

Definition distinct_scrape_times (fd : DataFrame) : list string :=
  Pd.unique String.eqb (map scrape_time fd).

Definition partition_of (fd : DataFrame) (key : Z * string) : DataFrame :=
  filter (fun r => match price_date_dt r with
                   | Some d => (d =? fst key)%Z
                   | None => false
                   end && String.eqb (scrape_time r) (snd key)) fd.

Definition series_row (fd : DataFrame) (key : Z * string) : SeriesRow :=
  let m := key_metrics (partition_of fd key) in
  mkSeriesRow (fst key) (snd key) (adr m) (occupancy_rate m) (revpar m).

(** The keys of the non-empty partitions. *)
Definition series_keys (fd : DataFrame) : list (Z * string) :=
  filter (fun key => negb (empty (partition_of fd key)))
         (list_prod (distinct_dates fd) (distinct_scrape_times fd)).

Definition series (fd : DataFrame) : list SeriesRow :=
  map (series_row fd) (series_keys fd).

(** A record of [revpar_data], respectively [occupancy_data], shows the
    date, the scrape time and the metric of a row of the series. *)
Definition shows_revpar (p : Point) (s : SeriesRow) : Prop :=
  point_date p = Some (series_date s) /\
  point_scrape_time p = series_scrape_time s /\
  value p == series_revpar s.

Definition shows_occupancy (p : Point) (s : SeriesRow) : Prop :=
  point_date p = Some (series_date s) /\
  point_scrape_time p = series_scrape_time s /\
  value p == series_occupancy_rate s.

End Spec.

(** ** Sample data *)

Module Samples.

(** A cleaned row with the columns the metrics read; the stay is one night
    for two persons. *)
Definition row (hotel : option string) (p score : option Q)
           (date : option Z) (st : string) : Row :=
  {| name := hotel; nights := 1; persons := 2;
     price := p; review_score := score; distance := None;
     price_date := ""; scrape_time := st;
     price_date_dt := date; weekday := None |}.

(** The scenario of the specification: two hotels, one row without price
    and one without score. *)
Definition scenario : DataFrame :=
  [ row (Some "A") (Some 100) (Some 8) (Some 1%Z) "Morning";
    row (Some "A") None (Some 6) (Some 1%Z) "Morning";
    row (Some "B") (Some 200) None (Some 1%Z) "Morning" ].

(** One hotel, listed without a price. *)
Definition unpriced : DataFrame :=
  [ row (Some "A") None None (Some 1%Z) "Morning" ].

(** One hotel offered for free and not yet rated above zero. *)
Definition free_stay : DataFrame :=
  [ row (Some "A") (Some 0) (Some 0) (Some 1%Z) "Morning" ].

(** Three hotels of which one has a price. *)
Definition one_in_three : DataFrame :=
  [ row (Some "A") (Some 300) None (Some 1%Z) "Morning";
    row (Some "B") None None (Some 1%Z) "Morning";
    row (Some "C") None None (Some 1%Z) "Morning" ].

(** A priced row whose [name] cell is empty. *)
Definition nameless : DataFrame :=
  [ row None (Some 100) (Some 8) (Some 1%Z) "Morning" ].

(** Three hotels on one day and scrape, one of them priced at 1. *)
Definition cheap_one_in_three : DataFrame :=
  [ row (Some "A") (Some 1) None (Some 1%Z) "Morning";
    row (Some "B") None None (Some 1%Z) "Morning";
    row (Some "C") None None (Some 1%Z) "Morning" ].

(** The same hotel scraped in the morning and in the evening of day 1. *)
Definition two_scrapes : DataFrame :=
  [ row (Some "A") (Some 100) (Some 8) (Some 1%Z) "Morning";
    row (Some "A") (Some 120) (Some 8) (Some 1%Z) "Evening" ].

(** Conversions that coerce every cell to the missing value. *)
Definition coerce_all : Pandas :=
  {| to_numeric := fun _ => None;
     to_datetime := fun _ _ => None;
     day_name := fun _ => "" |}.

(** Two files on which [pd.read_csv] raises. *)
Definition broken_files : list CsvFile :=
  [ mkCsvFile "csv_files/Oulu_Mor.csv" (inl "No columns to parse from file");
    mkCsvFile "csv_files/Oulu_Eve.csv" (inl "Error tokenizing data") ].

Definition with_nights (n : Z) (r : Row) : Row :=
  {| name := name r; nights := n; persons := persons r;
     price := price r; review_score := review_score r;
     distance := distance r; price_date := price_date r;
     scrape_time := scrape_time r; price_date_dt := price_date_dt r;
     weekday := weekday r |}.

(** The same hotel queried for one night and for two nights. *)
Definition two_stays : DataFrame :=
  [ row (Some "A") (Some 100) (Some 8) (Some 1%Z) "Morning";
    with_nights 2 (row (Some "A") (Some 180) (Some 8) (Some 1%Z) "Morning") ].

(** Rows on day 9 and without a parsed date. *)
Definition mixed_dates : DataFrame :=
  [ row (Some "A") (Some 100) (Some 8) (Some 9%Z) "Morning";
    row (Some "B") (Some 120) (Some 7) None "Evening" ].

(** No hotel selected, one night, two persons, prices 0 to 1000, and a
    date input holding the single day 5. *)
Definition one_date : Selections :=
  {| selected_hotels := []; selected_nights := 1; selected_persons := 2;
     price_range := (0, 1000); date_range := [5%Z] |}.

(** The same with the date range from day 1 to day 1. *)
Definition day_one : Selections :=
  {| selected_hotels := []; selected_nights := 1; selected_persons := 2;
     price_range := (0, 1000); date_range := [1%Z; 1%Z] |}.

End Samples.

(** ** The remaining sidebar options and the grouped charts *)

Module Group.

Section SortBy.
Variable A : Type.
Variable leb : A -> A -> bool.

(** Python [sorted] under the order [leb]; equal elements keep their
    order. *)
Fixpoint insert_by (x : A) (l : list A) : list A :=
  match l with
  | [] => [x]
  | y :: l' => if leb x y then x :: l else y :: insert_by x l'
  end.

Definition sorted_by (l : list A) : list A := fold_right insert_by [] l.
End SortBy.

(** The order of Python tuples [(a, b)]: by the first component, then by the
    second. *)
Definition lex_leb {A B : Type} (ltbA eqbA : A -> A -> bool)
           (lebB : B -> B -> bool) (x y : A * B) : bool :=
  ltbA (fst x) (fst y) || (eqbA (fst x) (fst y) && lebB (snd x) (snd y)).

Definition pair_eqb {A B : Type} (eqbA : A -> A -> bool)
           (eqbB : B -> B -> bool) (x y : A * B) : bool :=
  eqbA (fst x) (fst y) && eqbB (snd x) (snd y).

(** [Series.mean()]: missing when the series has no value. *)
Definition mean_opt (series : list (option Q)) : option Q :=
  match Pd.dropna series with
  | [] => None
  | v :: vs => Some (Num.mean (v :: vs))
  end.

Section GroupBy.
Variable K : Type.
Variable keqb : K -> K -> bool.
Variable kleb : K -> K -> bool.
(** The group key of a row; [None] when one of the key columns is missing,
    in which case [groupby] leaves the row out. *)
Variable key : Row -> option K.

Definition group (fd : DataFrame) (k : K) : DataFrame :=
  filter (fun r => Pd.cell_eq keqb (key r) (Some k)) fd.

(** The group keys, sorted. *)
Definition group_keys (fd : DataFrame) : list K :=
  sorted_by kleb (Pd.unique keqb (Pd.dropna (map key fd))).

(** [fd.groupby(keys)['price'].mean().reset_index()]. *)
Definition groupby_price_mean (fd : DataFrame) : list (K * option Q) :=
  map (fun k => (k, mean_opt (map price (group fd k)))) (group_keys fd).
End GroupBy.

End Group.

(** [sorted(data['name'].dropna().unique())]. *)
Definition hotel_names (data : DataFrame) : list string :=
  Group.sorted_by String.leb (Pd.unique String.eqb (Pd.dropna (map name data))).

(** [(min_price, max_price)], when [price_data] is not empty. *)
Definition price_bounds (data : DataFrame) : option (Q * Q) :=
  match price_data data with
  | p :: ps => Some (Pd.Qmin_list p ps, Pd.Qmax_list p ps)
  | [] => None
  end.

Definition date_key (r : Row) : option (Z * string) :=
  match price_date_dt r with
  | Some d => Some (d, scrape_time r)
  | None => None
  end.

Definition weekday_key (r : Row) : option (string * string) :=
  match weekday r with
  | Some day => Some (day, scrape_time r)
  | None => None
  end.

(** [groupby(['price_date_dt', 'scrape_time'])['price'].mean()]. *)
Definition price_by_date (fd : DataFrame) : list ((Z * string) * option Q) :=
  Group.groupby_price_mean
    (Group.pair_eqb Z.eqb String.eqb)
    (Group.lex_leb Z.ltb Z.eqb String.leb) date_key fd.

(** [groupby(['weekday', 'scrape_time'])['price'].mean()]. *)
Definition weekday_data (fd : DataFrame)
  : list ((string * string) * option Q) :=
  Group.groupby_price_mean
    (Group.pair_eqb String.eqb String.eqb)
    (Group.lex_leb String.ltb String.eqb String.leb) weekday_key fd.

(** [pd.read_csv] yields rows on the file. *)
Definition readable (file : CsvFile) : bool :=
  match read_csv file with inr _ => true | inl _ => false end.

(** The rows of the readable files in order, as [pd.concat] joins them, and
    the ['price_date'] column of the result. *)
Definition combined_rows (files : list CsvFile) : list (RawRow * string) :=
  List.concat (snd (read_files files)).

Definition combined_dates (files : list CsvFile) : list string :=
  map (fun t => raw_price_date (fst t)) (combined_rows files).

(** The columns of a row other than the parsed date and the weekday. *)
Definition undated (r : Row) :=
  (name r, nights r, persons r, price r, review_score r, distance r,
   price_date r, scrape_time r).

(** ** Sample tables with calendar dates *)

Module Dated.

(** Midnight of the day numbered [n] from the epoch. *)
Definition day (n : Z) : Z := (n * ns_per_day)%Z.

Definition stay (hotel : option string) (n : Z) (p : option Q) (t : Z)
  : Row :=
  Samples.with_nights n (Samples.row hotel p (Some 8) (Some t) "Morning").

(** The same hotel queried, on one day, for one night and for two. *)
Definition two_stays : DataFrame :=
  [ stay (Some "A") 1 (Some 100) (day 20000);
    stay (Some "A") 2 (Some 180) (day 20000) ].

(** What the sidebar returns on [two_stays] when left untouched. *)
Definition two_stays_defaults : Widgets :=
  {| multiselect := []; selectbox_nights := 1; selectbox_persons := 2;
     slider := (100, 180); date_input := [day 20000; day 20000] |}.

(** Two scrapes of one day, at midnight and at 18:00. *)
Definition late_scrape : DataFrame :=
  [ stay (Some "A") 1 (Some 100) (day 20000);
    stay (Some "B") 1 (Some 120) (day 20000 + 64800000000000) ].

(** Two priced rows whose [name] cell is empty. *)
Definition nameless_pair : DataFrame :=
  [ stay None 1 (Some 100) (day 20000);
    stay None 1 (Some 120) (day 20000) ].

Definition nameless_pair_defaults : Widgets :=
  {| multiselect := []; selectbox_nights := 1; selectbox_persons := 2;
     slider := (100, 120); date_input := [day 20000; day 20000] |}.

(** One row: the lowest and the highest price coincide. *)
Definition single_price : DataFrame :=
  [ stay (Some "A") 1 (Some 100) (day 20000) ].

End Dated.

(** [hundredths e x]: [x] is a whole number of hundredths, up to [e]. *)
Definition hundredths (e x : Q) : Prop :=
  exists k : Z, Qabs (x - inject_Z k / 100) <= e.

(** * Properties *)

(** ** Strings *)

Module PyStrFacts.
Import PyStr.
Local Open Scope string_scope.

Lemma prefix_iff (p s : string) :
  String.prefix p s = true <-> exists suf, s = p ++ suf.
Proof.
  revert s; induction p as [|a p IH]; intros s.
  - split; [intros _; now exists s | intros _; now destruct s].
  - destruct s as [|b s]; simpl.
    + split; [discriminate | intros [suf E]; discriminate E].
    + destruct (ascii_dec a b) as [->|ne].
      * rewrite IH. split; intros [suf E]; exists suf.
        -- now rewrite E.
        -- now injection E.
      * split; [discriminate | intros [suf E]; injection E; congruence].
Qed.

Lemma contains_iff (pat s : string) :
  contains pat s = true <-> Substring pat s.
Proof.
  unfold Substring. induction s as [|c s IH].
  - cbn [contains]. rewrite orb_false_r, prefix_iff. split.
    + intros [suf E]. now exists "", suf.
    + intros [pre [suf E]]. destruct pre; [now exists suf | discriminate E].
  - cbn [contains]. rewrite orb_true_iff, prefix_iff, IH. split.
    + intros [[suf E] | [pre [suf E]]].
      * now exists "", suf.
      * exists (String c pre), suf. now rewrite E.
    + intros [pre [suf E]]. destruct pre as [|c' pre].
      * left. now exists suf.
      * right. exists pre, suf. simpl in E. now injection E.
Qed.

Lemma contains_false_iff (pat s : string) :
  contains pat s = false <-> ~ Substring pat s.
Proof.
  rewrite <- contains_iff. destruct (contains pat s); intuition congruence.
Qed.

Lemma no_sep_snoc (s : string) (c : ascii) :
  no_sep s -> c <> "/"%char -> no_sep (s ++ String c "").
Proof. induction s; simpl; intuition. Qed.

Lemma no_sep_not_substring (s : string) : no_sep s -> ~ Substring "/" s.
Proof.
  intros Hs [pre [suf E]]. subst s.
  induction pre as [|c pre IH]; simpl in Hs; intuition.
Qed.

Lemma append_nil_r (s : string) : s ++ "" = s.
Proof. induction s; simpl; congruence. Qed.

Lemma append_assoc (a b c : string) : (a ++ b) ++ c = a ++ b ++ c.
Proof. induction a; simpl; congruence. Qed.

(** The invariant of the scan: [cur] is [mid ++ p] with no separator in
    [mid]. *)
Lemma basename_from_spec (p cur mid : string) :
  cur = mid ++ p -> no_sep mid ->
  exists dir,
    cur = dir ++ basename_from cur p /\
    no_sep (basename_from cur p) /\
    (dir = "" \/ exists d, dir = d ++ "/").
Proof.
  revert cur mid. induction p as [|c p IH]; intros cur mid E Hmid.
  - exists "". simpl. rewrite append_nil_r in E. subst cur. auto.
  - simpl. destruct (Ascii.eqb_spec c "/") as [->|ne].
    + destruct (IH p "" eq_refl I) as [dir [E' [Hb Hd]]].
      exists (mid ++ "/" ++ dir). repeat split; trivial.
      * rewrite E, !append_assoc. simpl. now rewrite <- E'.
      * right. destruct Hd as [->|[d ->]].
        -- exists mid. now rewrite append_nil_r.
        -- exists (mid ++ "/" ++ d). now rewrite !append_assoc.
    + apply (IH cur (mid ++ String c "")).
      * now rewrite append_assoc.
      * now apply no_sep_snoc.
Qed.

(** [basename] returns what follows the last separator of the path. *)
Lemma basename_spec (p : string) :
  exists dir,
    p = dir ++ basename p /\
    ~ Substring "/" (basename p) /\
    (dir = "" \/ exists d, dir = d ++ "/").
Proof.
  destruct (@basename_from_spec p p "" eq_refl I) as [dir [E [Hb Hd]]].
  exists dir. repeat split; trivial. now apply no_sep_not_substring.
Qed.

End PyStrFacts.

(** ** Scrape time *)

(** C5: the scrape time of a file is "Morning" exactly when its base name
    contains "Mor", "Evening" exactly when it contains "Eve" but not "Mor",
    and "Unknown" exactly when it contains neither; it is always one of these
    three labels. *)
Theorem get_scrape_time_spec (filename : string) :
  let base := PyStr.basename filename in
  (get_scrape_time filename = "Morning" <-> PyStr.Substring "Mor" base) /\
  (get_scrape_time filename = "Evening" <->
     ~ PyStr.Substring "Mor" base /\ PyStr.Substring "Eve" base) /\
  (get_scrape_time filename = "Unknown" <->
     ~ PyStr.Substring "Mor" base /\ ~ PyStr.Substring "Eve" base) /\
  (get_scrape_time filename = "Morning" \/
   get_scrape_time filename = "Evening" \/
   get_scrape_time filename = "Unknown").
Proof.
  intros base. unfold get_scrape_time. fold base.
  rewrite <- !PyStrFacts.contains_iff.
  destruct (PyStr.contains "Mor" base), (PyStr.contains "Eve" base);
    repeat split; intros; auto;
    try discriminate; try tauto; intuition discriminate.
Qed.

Example get_scrape_time_morning :
  get_scrape_time "csv_files/Oulu_Mor_2025-01-05.csv" = "Morning".
Proof. reflexivity. Qed.

Example get_scrape_time_both :
  get_scrape_time "csv_files/Eve_then_Mor.csv" = "Morning".
Proof. reflexivity. Qed.

Example get_scrape_time_directory_ignored :
  get_scrape_time "Mor/Oulu_Eve.csv" = "Evening".
Proof. reflexivity. Qed.

Example get_scrape_time_unknown :
  get_scrape_time "csv_files/oulu_morning.csv" = "Unknown".
Proof. reflexivity. Qed.

(** ** Rounding *)

Module NumFacts.
Import Num.
Local Open Scope Q_scope.

Lemma rint_cases (q : Q) :
  let f := Qfloor q in
  (q - inject_Z f < 1 # 2 /\ rint q = f) \/
  (q - inject_Z f == 1 # 2 /\ rint q = if Z.even f then f else (f + 1)%Z) \/
  (1 # 2 < q - inject_Z f /\ rint q = (f + 1)%Z).
Proof.
  intros f. unfold rint. fold f.
  destruct (Qcompare_spec (q - inject_Z f) (1 # 2)); auto.
Qed.

Lemma floor_frac (q : Q) :
  0 <= q - inject_Z (Qfloor q) /\ q - inject_Z (Qfloor q) < 1.
Proof.
  pose proof (Qfloor_le q). pose proof (Qlt_floor q) as Hlt.
  rewrite inject_Z_plus in Hlt. change (inject_Z 1) with 1 in Hlt.
  split; lra.
Qed.

Lemma rint_between (q : Q) :
  (Qfloor q <= rint q <= Qfloor q + 1)%Z.
Proof.
  destruct (rint_cases q) as [[_ ->] | [[_ ->] | [_ ->]]];
    try destruct (Z.even _); lia.
Qed.

Lemma rint_Z (z : Z) : rint (inject_Z z) = z.
Proof.
  destruct (rint_cases (inject_Z z)) as [[_ E] | [[H _] | [H _]]];
    rewrite Qfloor_Z in *; trivial; lra.
Qed.

Lemma rint_mono (q q' : Q) : q <= q' -> (rint q <= rint q')%Z.
Proof.
  intros Hle. pose proof (Qfloor_resp_le _ _ Hle) as Hf.
  destruct (Z.eq_dec (Qfloor q) (Qfloor q')) as [E | ne].
  - destruct (rint_cases q) as [[H1 ->] | [[H1 ->] | [H1 ->]]];
    destruct (rint_cases q') as [[H2 ->] | [[H2 ->] | [H2 ->]]];
    rewrite E in *; try destruct (Z.even _); try lia; lra.
  - pose proof (rint_between q). pose proof (rint_between q'). lia.
Qed.

Lemma round2_mono (q q' : Q) : q <= q' -> round2 q <= round2 q'.
Proof.
  intros Hle. unfold round2.
  assert (H : (rint (q * 100) <= rint (q' * 100))%Z)
    by (apply rint_mono; lra).
  rewrite Zle_Qle in H. unfold Qdiv.
  apply Qmult_le_compat_r; [assumption | easy].
Qed.

(** A number of hundredths is a fixed point of [round2]. *)
Lemma round2_hundredths (z : Z) : round2 (inject_Z z / 100) == inject_Z z / 100.
Proof.
  unfold round2.
  assert (E : inject_Z z / 100 * 100 == inject_Z z) by (field; discriminate).
  now rewrite E, rint_Z.
Qed.

Lemma round2_idem (q : Q) : round2 (round2 q) == round2 q.
Proof. unfold round2 at 2 3. apply round2_hundredths. Qed.

Lemma round2_Z (z : Z) : round2 (inject_Z z) == inject_Z z.
Proof.
  assert (E : inject_Z z == inject_Z (z * 100) / 100)
    by (rewrite inject_Z_mult; field).
  rewrite E at 1. rewrite round2_hundredths. now rewrite <- E.
Qed.

Lemma round2_0 : round2 0 == 0.
Proof. exact (round2_Z 0). Qed.

Lemma round2_100 : round2 100 == 100.
Proof. exact (round2_Z 100). Qed.

Lemma round2_bounds (lo hi : Z) (q : Q) :
  inject_Z lo <= q <= inject_Z hi ->
  inject_Z lo <= round2 q <= inject_Z hi.
Proof.
  intros [Hlo Hhi]. split.
  - rewrite <- (round2_Z lo). now apply round2_mono.
  - rewrite <- (round2_Z hi). now apply round2_mono.
Qed.

Example round2_examples :
  round2 (100 # 3) == 3333 # 100 /\ round2 (2 # 3) == 67 # 100 /\
  round2 (- (1 # 3)) == - (33 # 100) /\ round2 (15 # 2) == 750 # 100.
Proof. vm_compute. repeat split. Qed.

End NumFacts.

(** ** Columns *)

Module PdFacts.
Import Pd.

Lemma in_dropna {A : Type} (v : A) (series : list (option A)) :
  In v (dropna series) <-> In (Some v) series.
Proof.
  induction series as [|[a|] rest IH]; simpl.
  - tauto.
  - rewrite IH. split; intros [E|Hin]; auto; left; congruence.
  - rewrite IH. split; [auto | intros [E|Hin]; [discriminate | trivial]].
Qed.

Lemma dropna_nil_iff {A : Type} (series : list (option A)) :
  dropna series = [] <-> Forall (fun cell => cell = None) series.
Proof.
  induction series as [|[a|] rest IH]; simpl.
  - split; auto.
  - split; [discriminate | intros F; inversion F; discriminate].
  - rewrite IH. split; [auto | intros F; now inversion F].
Qed.

Lemma dropna_filter_notna {A : Type} (series : list (option A)) :
  List.length (dropna series) = List.length (filter (@notna A) series).
Proof. induction series as [|[a|] rest IH]; simpl; congruence. Qed.

Lemma dropna_all_notna {A B : Type} (col : A -> option B) (l : list A) :
  Forall (fun r => notna (col r) = true) l ->
  List.length (dropna (map col l)) = List.length l.
Proof.
  induction 1 as [|r l Hr _ IH]; simpl; trivial.
  destruct (col r); [simpl; congruence | discriminate].
Qed.

Section Unique.
Variable A : Type.
Variable eqb : A -> A -> bool.
Hypothesis eqb_eq : forall x y, eqb x y = true <-> x = y.

Lemma in_unique (x : A) (l : list A) : In x (unique eqb l) <-> In x l.
Proof.
  induction l as [|a l IH]; simpl; [tauto|].
  rewrite filter_In, IH, negb_true_iff.
  destruct (eqb a x) eqn:E.
  - apply eqb_eq in E. intuition congruence.
  - assert (a <> x) by (intros ->; rewrite (proj2 (eqb_eq x x)) in E;
                        [discriminate | reflexivity]).
    intuition.
Qed.

Lemma NoDup_unique (l : list A) : NoDup (unique eqb l).
Proof.
  induction l as [|a l IH]; simpl; constructor.
  - rewrite filter_In, negb_true_iff.
    intros [_ E]. rewrite (proj2 (eqb_eq a a) eq_refl) in E. discriminate.
  - now apply NoDup_filter.
Qed.

Lemma unique_length_incl (l l' : list A) :
  incl l l' -> (List.length (unique eqb l) <= List.length (unique eqb l'))%nat.
Proof.
  intros Hincl. apply NoDup_incl_length; [apply NoDup_unique|].
  intros x. rewrite !in_unique. apply Hincl.
Qed.

Lemma unique_nil_iff (l : list A) : unique eqb l = [] <-> l = [].
Proof. destruct l; simpl; split; congruence. Qed.

Lemma nunique_zero_iff (series : list (option A)) :
  nunique eqb series = 0%nat <-> Forall (fun cell => cell = None) series.
Proof.
  unfold nunique. rewrite length_zero_iff_nil, unique_nil_iff.
  apply dropna_nil_iff.
Qed.

Lemma mem_iff (x : A) (l : list A) : mem eqb x l = true <-> In x l.
Proof.
  unfold mem. rewrite existsb_exists. split.
  - intros [y [Hin E]]. apply eqb_eq in E. now subst.
  - intros Hin. exists x. split; trivial. now apply eqb_eq.
Qed.

Lemma isin_iff (cell : option A) (values : list A) :
  isin eqb cell values = true <-> exists v, cell = Some v /\ In v values.
Proof.
  destruct cell as [v|]; simpl.
  - rewrite mem_iff. split; [eauto | intros [v' [E Hin]]; congruence].
  - split; [discriminate | intros [v [E _]]; discriminate].
Qed.

Lemma cell_eq_iff (x y : option A) :
  cell_eq eqb x y = true <-> exists v, x = Some v /\ y = Some v.
Proof.
  destruct x as [a|], y as [b|]; simpl;
    try (split; [discriminate | intros [v [E1 E2]]; discriminate]).
  rewrite eqb_eq. split; [intros ->; eauto | intros [v [E1 E2]]; congruence].
Qed.

Lemma cell_eqb_eq (x y : option A) : cell_eqb eqb x y = true <-> x = y.
Proof.
  destruct x as [a|], y as [b|]; simpl; try (split; congruence).
  rewrite eqb_eq. split; congruence.
Qed.

(** Dropping the missing value from the distinct cells gives the distinct
    values. *)
Lemma dropna_unique (series : list (option A)) :
  dropna (unique (cell_eqb eqb) series) = unique eqb (dropna series).
Proof.
  assert (Hsome : forall a l,
             dropna (filter (fun y => negb (cell_eqb eqb (Some a) y)) l) =
             filter (fun y => negb (eqb a y)) (dropna l)).
  { intros a l. induction l as [|[b|] l IH]; cbn [filter dropna]; trivial.
    change (cell_eqb eqb (Some a) (Some b)) with (eqb a b).
    destruct (eqb a b); cbn [negb dropna]; congruence. }
  assert (Hnone : forall l,
             dropna (filter (fun y => negb (cell_eqb eqb None y)) l) =
             dropna l).
  { intros l. induction l as [|[b|] l IH]; cbn [filter dropna]; trivial.
    change (cell_eqb eqb None (Some b)) with false.
    cbn [negb dropna]. congruence. }
  induction series as [|[a|] rest IH]; cbn [unique dropna]; trivial.
  - now rewrite Hsome, IH.
  - now rewrite Hnone.
Qed.
End Unique.

Example unique_first_appearance :
  unique Z.eqb [3; 1; 3; 2; 1]%Z = [3; 1; 2]%Z /\
  unique (cell_eqb Z.eqb) [None; Some 2; None; Some 2]%Z = [None; Some 2%Z] /\
  nunique Z.eqb [None; Some 2; None; Some 2]%Z = 1%nat.
Proof. repeat split. Qed.

Example sorted_example : sorted [3; 1; 2]%Z = [1; 2; 3]%Z.
Proof. reflexivity. Qed.

End PdFacts.

(** ** Metrics *)

Section Metrics.
Local Open Scope Q_scope.
Import Num NumFacts PdFacts.

Lemma Qnat_nonneg (n : nat) : 0 <= Qnat n.
Proof.
  unfold Qnat. change 0 with (inject_Z 0). rewrite <- Zle_Qle. lia.
Qed.

Lemma Qnat_pos (n : nat) : (0 < n)%nat -> 0 < Qnat n.
Proof.
  intros Hn. unfold Qnat. change 0 with (inject_Z 0). rewrite <- Zlt_Qlt. lia.
Qed.

Lemma Qnat_le (n m : nat) : (n <= m)%nat <-> Qnat n <= Qnat m.
Proof. unfold Qnat. rewrite <- Zle_Qle. lia. Qed.

Lemma Qnat_mult (k n : nat) : Qnat (k * n) == Qnat k * Qnat n.
Proof. unfold Qnat. now rewrite Nat2Z.inj_mul, inject_Z_mult. Qed.

Lemma total_hotels_spec (df : DataFrame) :
  total_hotels df = List.length (Spec.distinct_hotels df).
Proof. reflexivity. Qed.

Lemma in_distinct_hotels (df : DataFrame) (h : string) :
  In h (Spec.distinct_hotels df) <-> exists r, In r df /\ name r = Some h.
Proof.
  unfold Spec.distinct_hotels.
  rewrite (@in_unique _ _ String.eqb_eq), in_dropna, in_map_iff.
  split; intros [r [H1 H2]]; eauto.
Qed.

Lemma has_price_iff (df : DataFrame) (h : string) :
  Spec.has_price df h = true <->
  exists r, In r df /\ name r = Some h /\ Pd.notna (price r) = true.
Proof.
  unfold Spec.has_price. rewrite existsb_exists. split.
  - intros [r [Hin Hr]]. apply andb_true_iff in Hr as [Hn Hp].
    apply (@cell_eq_iff _ _ String.eqb_eq) in Hn as [v [E1 E2]].
    exists r. repeat split; trivial. congruence.
  - intros [r [Hin [Hn Hp]]]. exists r. split; trivial.
    apply andb_true_iff. split; trivial.
    apply (@cell_eq_iff _ _ String.eqb_eq). eauto.
Qed.

(** The count taken after dropping the rows without price is the number
    of distinct hotels that have a price. *)
Lemma hotels_with_prices_spec (df : DataFrame) :
  hotels_with_prices df = List.length (Spec.priced_hotels df).
Proof.
  unfold hotels_with_prices, Pd.nunique.
  apply Permutation_length, NoDup_Permutation.
  - apply (@NoDup_unique _ _ String.eqb_eq).
  - apply NoDup_filter, (@NoDup_unique _ _ String.eqb_eq).
  - intros h. unfold Spec.priced_hotels.
    rewrite (@in_unique _ _ String.eqb_eq), in_dropna, in_map_iff, filter_In.
    rewrite in_distinct_hotels, has_price_iff. split.
    + intros [r [Hn Hr]]. apply filter_In in Hr as [Hin Hp]. split; eauto.
    + intros [_ [r [Hin [Hn Hp]]]]. exists r. split; trivial.
      apply filter_In. now split.
Qed.

Lemma priced_le_distinct (df : DataFrame) :
  (List.length (Spec.priced_hotels df) <=
   List.length (Spec.distinct_hotels df))%nat.
Proof.
  apply NoDup_incl_length.
  - apply NoDup_filter, (@NoDup_unique _ _ String.eqb_eq).
  - apply incl_filter.
Qed.

Lemma distinct_hotels_nil_iff (df : DataFrame) :
  Spec.distinct_hotels df = [] <-> Forall (fun r => name r = None) df.
Proof.
  unfold Spec.distinct_hotels.
  rewrite unique_nil_iff, dropna_nil_iff, Forall_map. reflexivity.
Qed.

Lemma calculate_occupancy_rate_spec (df : DataFrame) :
  calculate_occupancy_rate df = Spec.occupancy df.
Proof.
  unfold calculate_occupancy_rate, Spec.occupancy.
  rewrite hotels_with_prices_spec, total_hotels_spec.
  destruct df as [|r df]; [reflexivity|]. cbn [empty].
  destruct (Spec.distinct_hotels (r :: df)); reflexivity.
Qed.

Lemma ratio_bounds (h t : nat) :
  (h <= t)%nat -> (0 < t)%nat ->
  inject_Z 0 <= Qnat h / Qnat t * 100 <= inject_Z 100.
Proof.
  intros Hle Ht. pose proof (Qnat_pos Ht) as Tpos.
  pose proof (Qnat_nonneg h) as Hh. apply Qnat_le in Hle.
  assert (E : Qnat h / Qnat t * Qnat t == Qnat h) by (field; lra).
  set (x := Qnat h / Qnat t) in *.
  change (inject_Z 0) with 0. change (inject_Z 100) with 100.
  split; nra.
Qed.

(** C1, as stated: a subset whose only hotel has no price has one distinct
    hotel and occupancy rate 0. *)
Lemma occupancy_rate_zero_with_hotels :
  ~ (calculate_occupancy_rate Samples.unpriced == 0 <->
     total_hotels Samples.unpriced = 0%nat).
Proof.
  assert (E : calculate_occupancy_rate Samples.unpriced == 0)
    by (vm_compute; reflexivity).
  intros [H _]. specialize (H E). vm_compute in H. discriminate H.
Qed.

Lemma sum_dropna (series : list (option Q)) :
  Num.sum (Pd.dropna series) = Spec.sum_notna series.
Proof.
  unfold Num.sum, Spec.sum_notna.
  induction series as [|[v|] rest IH];
    cbn [Pd.dropna fold_right]; congruence.
Qed.

Lemma mean_dropna (series : list (option Q)) :
  Num.mean (Pd.dropna series) = Spec.mean_notna series.
Proof.
  unfold Num.mean, Spec.mean_notna, Spec.count_notna, Qnat.
  now rewrite sum_dropna, dropna_filter_notna.
Qed.

(** C2, as stated: a single row with price 0 has ADR 0 although its price
    is not null. *)
Lemma adr_zero_with_price :
  ~ (adr (key_metrics Samples.free_stay) == 0 <->
     Spec.all_null (map price Samples.free_stay)).
Proof.
  assert (E : adr (key_metrics Samples.free_stay) == 0)
    by (vm_compute; reflexivity).
  intros [H _]. specialize (H E). inversion H. discriminate.
Qed.

Lemma safe_mean_rounded (series : list (option Q)) :
  round2 (safe_mean series) == safe_mean series.
Proof.
  unfold safe_mean. destruct (Pd.dropna series).
  - apply round2_0.
  - apply round2_idem.
Qed.

Lemma occupancy_rate_rounded (df : DataFrame) :
  round2 (calculate_occupancy_rate df) == calculate_occupancy_rate df.
Proof.
  unfold calculate_occupancy_rate.
  destruct (empty df); [apply round2_0|].
  destruct (0 <? total_hotels df)%nat; [apply round2_idem | apply round2_0].
Qed.

Example scenario_metrics :
  let m := key_metrics Samples.scenario in
  total_hotels Samples.scenario = 2%nat /\
  hotels_with_prices Samples.scenario = 2%nat /\
  occupancy_rate m == 100 /\ adr m == 150 /\
  avg_review_score m == 7 /\ revpar m == 150.
Proof. vm_compute. repeat split. Qed.

Example unpriced_metrics :
  let m := key_metrics Samples.unpriced in
  adr m == 0 /\ occupancy_rate m == 0 /\ revpar m == 0.
Proof. vm_compute. repeat split. Qed.

Example one_in_three_revpar :
  revpar (key_metrics Samples.one_in_three) == 9999 # 100 /\
  Spec.exact_revpar Samples.one_in_three == 100.
Proof. vm_compute. repeat split. Qed.

End Metrics.

(** ** Filters *)

Section Filters.
Local Open Scope Q_scope.
Import PdFacts NumFacts.

Lemma filter_filter {A : Type} (f g : A -> bool) (l : list A) :
  filter f (filter g l) = filter (fun x => g x && f x) l.
Proof.
  induction l as [|x l IH]; simpl; trivial.
  destruct (g x); simpl; [destruct (f x)|]; congruence.
Qed.

Lemma filter_all {A : Type} (l : list A) : filter (fun _ => true) l = l.
Proof. induction l; simpl; congruence. Qed.

Lemma filter_id_iff {A : Type} (f : A -> bool) (l : list A) :
  filter f l = l <-> Forall (fun x => f x = true) l.
Proof.
  induction l as [|x l IH]; simpl.
  - split; auto.
  - destruct (f x) eqn:E.
    + split.
      * intros H. injection H as H. constructor; tauto.
      * intros H. inversion H. f_equal. tauto.
    + split.
      * intros H. pose proof (filter_length_le f l) as Hlen.
        rewrite H in Hlen. simpl in Hlen. lia.
      * intros H. inversion H. congruence.
Qed.

Lemma filtered_data_filter (data : DataFrame) (sel : Selections) :
  filtered_data data sel = filter (keep sel) data.
Proof.
  unfold filtered_data, filter_dates, filter_price, filter_stay, filter_hotels.
  assert (E1 : match selected_hotels sel with
               | [] => data
               | _ :: _ => filter (fun r => Pd.isin String.eqb (name r)
                                              (selected_hotels sel)) data
               end = filter (keep_hotel sel) data).
  { unfold keep_hotel. destruct (selected_hotels sel);
      [now rewrite filter_all | reflexivity]. }
  rewrite E1, !filter_filter.
  assert (E2 : forall df,
             match date_range sel with
             | [start_date; end_date] =>
                 filter (fun r => Pd.Zge_cell (price_date_dt r) start_date &&
                                  Pd.Zle_cell (price_date_dt r) end_date) df
             | _ => df
             end = filter (keep_date sel) df).
  { intros df. unfold keep_date.
    destruct (date_range sel) as [|s [|e [|x rest]]];
      now rewrite ?filter_all. }
  rewrite E2, filter_filter. apply filter_ext. intros r.
  unfold keep, keep_stay, keep_price. now rewrite !andb_assoc.
Qed.

Lemma keep_hotel_iff (sel : Selections) (r : Row) :
  keep_hotel sel r = true <-> Spec.hotel_ok sel r.
Proof.
  unfold keep_hotel, Spec.hotel_ok.
  destruct (selected_hotels sel) as [|h hs] eqn:E.
  - split; auto.
  - rewrite (@isin_iff _ _ String.eqb_eq). split; [auto|].
    intros [H|H]; [discriminate H | exact H].
Qed.

Lemma keep_stay_iff (sel : Selections) (r : Row) :
  keep_stay sel r = true <-> Spec.stay_ok sel r.
Proof.
  unfold keep_stay, Spec.stay_ok.
  now rewrite andb_true_iff, !Z.eqb_eq.
Qed.

Lemma keep_price_iff (sel : Selections) (r : Row) :
  keep_price sel r = true <-> Spec.price_ok sel r.
Proof.
  unfold keep_price, Spec.price_ok, Pd.Qge_cell, Pd.Qle_cell.
  destruct (price r) as [p|].
  - rewrite andb_true_iff, !Qle_bool_iff. split.
    + intros [H1 H2]. exists p. auto.
    + intros [p' [E [H1 H2]]]. injection E as <-. auto.
  - split; [discriminate | intros [p [E _]]; discriminate E].
Qed.

Lemma keep_date_iff (sel : Selections) (r : Row) :
  keep_date sel r = true <-> Spec.date_ok sel r.
Proof.
  unfold keep_date, Spec.date_ok, Pd.Zge_cell, Pd.Zle_cell.
  destruct (date_range sel) as [|s [|e [|x rest]]];
    try (split; [intros _ s' e' E; discriminate E | reflexivity]).
  destruct (price_date_dt r) as [d|].
  - rewrite andb_true_iff, !Z.leb_le. split.
    + intros [H1 H2] s' e' E. injection E as <- <-. exists d. auto.
    + intros H. destruct (H s e eq_refl) as [d' [E [H1 H2]]].
      injection E as <-. auto.
  - split; [discriminate|].
    intros H. destruct (H s e eq_refl) as [d' [E _]]. discriminate E.
Qed.

Lemma keep_iff (sel : Selections) (r : Row) :
  keep sel r = true <-> Spec.satisfies sel r.
Proof.
  unfold keep, Spec.satisfies.
  rewrite !andb_true_iff, keep_hotel_iff, keep_stay_iff, keep_price_iff,
    keep_date_iff. tauto.
Qed.

(** C6: the filtered table consists of exactly the rows of the base table,
    in order and with their multiplicity, that satisfy the conjunction of
    the active predicates; the price and date ranges include both bounds
    and a row with a null price (or, under a date range, a null date)
    is excluded. *)
Theorem filtered_data_spec (data : DataFrame) (sel : Selections) :
  (exists test : Row -> bool,
     (forall r, test r = true <-> Spec.satisfies sel r) /\
     filtered_data data sel = filter test data) /\
  (forall r, In r (filtered_data data sel) <->
             In r data /\ Spec.satisfies sel r) /\
  (forall r, In r (filtered_data data sel) ->
     (exists p, price r = Some p /\
                fst (price_range sel) <= p <= snd (price_range sel)) /\
     (forall s e, date_range sel = [s; e] ->
        exists d, price_date_dt r = Some d /\ (s <= d <= e)%Z)).
Proof.
  assert (Hin : forall r, In r (filtered_data data sel) <->
                          In r data /\ Spec.satisfies sel r).
  { intros r. now rewrite filtered_data_filter, filter_In, keep_iff. }
  split; [|split]; trivial.
  - exists (keep sel). split; [apply keep_iff | apply filtered_data_filter].
  - intros r H. apply Hin in H as [_ [_ [_ [[p [E [H1 H2]]] Hd]]]]. split.
    + eauto.
    + intros s e Er. destruct (Hd s e Er) as [d [Ed [H3 H4]]]. eauto.
Qed.

(** C10: when the date input does not hold exactly two endpoints, no date
    restriction is applied: the result is the table after the hotel, stay
    and price steps, and a row passes whatever its date. *)
Theorem date_range_needs_two_endpoints (data : DataFrame) (sel : Selections) :
  List.length (date_range sel) <> 2%nat ->
  filtered_data data sel =
    filter_price (price_range sel)
      (filter_stay (selected_nights sel) (selected_persons sel)
         (filter_hotels (selected_hotels sel) data)) /\
  (forall r, In r (filtered_data data sel) <->
             In r data /\ Spec.hotel_ok sel r /\ Spec.stay_ok sel r /\
             Spec.price_ok sel r).
Proof.
  intros Hlen.
  assert (Hd : forall r, keep_date sel r = true).
  { intros r. unfold keep_date.
    destruct (date_range sel) as [|s [|e [|x rest]]]; trivial.
    now contradict Hlen. }
  split.
  - unfold filtered_data, filter_dates.
    destruct (date_range sel) as [|s [|e [|x rest]]]; trivial.
    now contradict Hlen.
  - intros r. rewrite filtered_data_filter, filter_In. unfold keep.
    rewrite Hd, andb_true_r, !andb_true_iff, keep_hotel_iff, keep_stay_iff,
      keep_price_iff. tauto.
Qed.

(** C10 at a date input holding one day: the row of another day and the row
    without date both remain. *)
Lemma date_range_needs_two_endpoints_witness :
  List.length (date_range Samples.one_date) <> 2%nat /\
  filtered_data Samples.mixed_dates Samples.one_date = Samples.mixed_dates.
Proof.
  assert (H : List.length (date_range Samples.one_date) <> 2%nat)
    by (simpl; lia).
  split; [exact H|].
  destruct (date_range_needs_two_endpoints Samples.mixed_dates
              Samples.one_date H) as [E _].
  rewrite E. reflexivity.
Defined.

Lemma filtered_data_priced (data : DataFrame) (sel : Selections) :
  priced (filtered_data data sel).
Proof.
  apply Forall_forall. intros r Hin.
  rewrite filtered_data_filter, filter_In, keep_iff in Hin.
  destruct Hin as [_ [_ [_ [[p [E _]] _]]]]. now rewrite E.
Qed.

Lemma priced_filter (f : Row -> bool) (df : DataFrame) :
  priced df -> priced (filter f df).
Proof.
  unfold priced. rewrite !Forall_forall. intros H r Hin.
  apply filter_In in Hin. now apply H.
Qed.

(** On rows that all carry a price the occupancy rate is 100, unless no
    row carries a hotel name. *)
Lemma priced_occupancy (df : DataFrame) :
  priced df ->
  (total_hotels df <> 0%nat -> calculate_occupancy_rate df == 100) /\
  (total_hotels df = 0%nat -> calculate_occupancy_rate df = 0).
Proof.
  intros Hp. unfold calculate_occupancy_rate, hotels_with_prices.
  rewrite (proj2 (filter_id_iff _ df) Hp). fold (total_hotels df).
  destruct (empty df) eqn:Ee.
  - destruct df; [|discriminate Ee]. split; [intros H; now contradict H | trivial].
  - destruct (Nat.ltb_spec 0 (total_hotels df)) as [Ht|Ht]; split; intros H;
      try lia; try reflexivity.
    pose proof (Qnat_pos Ht) as Tpos.
    assert (E : Qnat (total_hotels df) / Qnat (total_hotels df) * 100 == 100)
      by (field; lra).
    rewrite E. apply NumFacts.round2_100.
Qed.

End Filters.

(** ** Default selections *)

Section FoldBounds.
Variable A : Type.
Variable le : A -> A -> Prop.
Variable op : A -> A -> A.
Hypothesis le_refl : forall x, le x x.
Hypothesis le_trans : forall x y z, le x y -> le y z -> le x z.
Hypothesis op_l : forall x y, le (op x y) x.
Hypothesis op_r : forall x y, le (op x y) y.

Lemma fold_left_le_init (l : list A) (a : A) : le (fold_left op l a) a.
Proof.
  revert a. induction l as [|b l IH]; intros a; simpl; [apply le_refl|].
  apply le_trans with (op a b); [apply IH | apply op_l].
Qed.

(** Folding a lower-bound operation yields a lower bound of all inputs. *)
Lemma fold_left_le (l : list A) (a x : A) :
  In x (a :: l) -> le (fold_left op l a) x.
Proof.
  revert a. induction l as [|b l IH]; intros a Hin; simpl.
  - destruct Hin as [->|[]]. apply le_refl.
  - destruct Hin as [->|[->|Hin]].
    + apply le_trans with (op x b); [apply fold_left_le_init | apply op_l].
    + apply le_trans with (op a x); [apply fold_left_le_init | apply op_r].
    + apply IH. now right.
Qed.
End FoldBounds.

Section Defaults.
Local Open Scope Q_scope.
Import PdFacts.

Lemma Zmin_col_le (series : list (option Z)) (m d : Z) :
  Pd.Zmin_col series = Some m -> In (Some d) series -> (m <= d)%Z.
Proof.
  unfold Pd.Zmin_col. intros E Hin. apply in_dropna in Hin.
  destruct (Pd.dropna series) as [|d0 ds]; [discriminate E|].
  injection E as <-.
  apply (@fold_left_le Z Z.le Z.min); auto using Z.le_refl, Z.le_min_l, Z.le_min_r.
  intros x y z. apply Z.le_trans.
Qed.

Lemma Zmax_col_ge (series : list (option Z)) (m d : Z) :
  Pd.Zmax_col series = Some m -> In (Some d) series -> (d <= m)%Z.
Proof.
  unfold Pd.Zmax_col. intros E Hin. apply in_dropna in Hin.
  destruct (Pd.dropna series) as [|d0 ds]; [discriminate E|].
  injection E as <-.
  apply (@fold_left_le Z (fun x y => (y <= x)%Z) Z.max);
    auto using Z.le_refl, Z.le_max_l, Z.le_max_r.
  intros x y z H1 H2. now apply Z.le_trans with y.
Qed.

Lemma Qmin_list_le (p : Q) (ps : list Q) (x : Q) :
  In x (p :: ps) -> Pd.Qmin_list p ps <= x.
Proof.
  apply (@fold_left_le Q Qle Qmin);
    auto using Qle_refl, Q.le_min_l, Q.le_min_r.
  intros a b c. apply Qle_trans.
Qed.

Lemma Qmax_list_ge (p : Q) (ps : list Q) (x : Q) :
  In x (p :: ps) -> x <= Pd.Qmax_list p ps.
Proof.
  apply (@fold_left_le Q (fun a b => b <= a) Qmax);
    auto using Qle_refl, Q.le_max_l, Q.le_max_r.
  intros a b c H1 H2. now apply Qle_trans with b.
Qed.

Lemma in_insert (x a : Z) (l : list Z) :
  In x (Pd.insert a l) <-> x = a \/ In x l.
Proof.
  induction l as [|y l IH]; simpl; [intuition|].
  destruct (a <=? y)%Z; simpl; rewrite ?IH; intuition.
Qed.

Lemma in_sorted (x : Z) (l : list Z) : In x (Pd.sorted l) <-> In x l.
Proof.
  induction l as [|a l IH]; simpl; [tauto|].
  rewrite in_insert, IH. intuition.
Qed.

Lemma hd_insert_le (a : Z) (l : list Z) :
  (hd 0 (Pd.insert a l) <= a)%Z /\
  (forall y, l <> [] -> (hd 0 l <= y)%Z -> (hd 0 (Pd.insert a l) <= y)%Z).
Proof.
  destruct l as [|b l]; simpl.
  - split; [lia | intros y H; now contradict H].
  - destruct (Z.leb_spec a b); simpl; split; intros; lia.
Qed.

(** The first element of [sorted l] is a least element of [l]. *)
Lemma sorted_hd_least (l : list Z) (x : Z) :
  In x l -> (hd 0 (Pd.sorted l) <= x)%Z.
Proof.
  induction l as [|a l IH]; simpl; [tauto|].
  intros [->|Hin].
  - apply (proj1 (hd_insert_le _ _)).
  - apply (proj2 (hd_insert_le _ _)); [|now apply IH].
    intros E. apply in_sorted in Hin. rewrite E in Hin. contradiction.
Qed.

Lemma sorted_hd_in (l : list Z) : l <> [] -> In (hd 0%Z (Pd.sorted l)) l.
Proof.
  intros Hne. apply in_sorted.
  destruct (Pd.sorted l) as [|y s] eqn:E; [|now left].
  destruct l as [|a l]; [contradiction|].
  assert (H : In a (Pd.sorted (a :: l))) by (apply in_sorted; now left).
  rewrite E in H. contradiction.
Qed.

(** The default of a select box is the least value of its column. *)
Lemma default_nights_least (data : DataFrame) :
  data <> [] ->
  In (hd 0%Z (nights_options data)) (map nights data) /\
  forall r, In r data -> (hd 0 (nights_options data) <= nights r)%Z.
Proof.
  intros Hne. unfold nights_options. split.
  - apply (@in_unique _ _ Z.eqb_eq). apply sorted_hd_in.
    rewrite unique_nil_iff. destruct data; [contradiction | discriminate].
  - intros r Hin. apply sorted_hd_least.
    apply (@in_unique _ _ Z.eqb_eq). now apply in_map.
Qed.

Lemma default_persons_least (data : DataFrame) :
  data <> [] ->
  In (hd 0%Z (persons_options data)) (map persons data) /\
  forall r, In r data -> (hd 0 (persons_options data) <= persons r)%Z.
Proof.
  intros Hne. unfold persons_options. split.
  - apply (@in_unique _ _ Z.eqb_eq). apply sorted_hd_in.
    rewrite unique_nil_iff. destruct data; [contradiction | discriminate].
  - intros r Hin. apply sorted_hd_least.
    apply (@in_unique _ _ Z.eqb_eq). now apply in_map.
Qed.

Lemma default_price_test (data : DataFrame) (w : Widgets) (r : Row) :
  In r data ->
  slider w = match price_data data with
             | p :: ps => (Pd.Qmin_list p ps, Pd.Qmax_list p ps)
             | [] => (0, 1000)
             end ->
  keep_price (selections data w) r = Pd.notna (price r).
Proof.
  intros Hin Hs. unfold keep_price, selections. cbn [price_range].
  destruct (price r) as [p|] eqn:Ep; [|reflexivity].
  assert (Hp : In p (price_data data)).
  { apply in_dropna. rewrite <- Ep. now apply in_map. }
  destruct (price_data data) as [|p0 ps]; [contradiction|].
  rewrite Hs. cbn [fst snd Pd.Qge_cell Pd.Qle_cell Pd.notna].
  apply andb_true_iff. split; apply Qle_bool_iff.
  - now apply Qmin_list_le.
  - now apply Qmax_list_ge.
Qed.

Lemma midnight_le (t : Z) : (midnight t <= t)%Z.
Proof.
  unfold midnight. rewrite Z.mul_comm.
  apply Z.mul_div_le. reflexivity.
Qed.

Lemma default_widgets_inv (data : DataFrame) (w : Widgets) :
  default_widgets data = Some w ->
  exists dmin dmax,
    Pd.Zmin_col (map price_date_dt data) = Some dmin /\
    Pd.Zmax_col (map price_date_dt data) = Some dmax /\
    multiselect w = [] /\
    selectbox_nights w = hd 0%Z (nights_options data) /\
    selectbox_persons w = hd 0%Z (persons_options data) /\
    date_input w = [midnight dmin; midnight dmax] /\
    slider w = match price_data data with
               | p :: ps => (Pd.Qmin_list p ps, Pd.Qmax_list p ps)
               | [] => (0, 1000)
               end.
Proof.
  unfold default_widgets. intros E.
  destruct (Pd.Zmin_col (map price_date_dt data)) as [dmin|];
    [|discriminate E].
  destruct (Pd.Zmax_col (map price_date_dt data)) as [dmax|];
    [|discriminate E].
  exists dmin, dmax.
  destruct (price_data data) as [|p ps].
  - injection E as <-. repeat split.
  - destruct (Qle_bool (Pd.Qmax_list p ps) (Pd.Qmin_list p ps));
      [discriminate E|].
    injection E as <-. repeat split.
Qed.

(** C7 (amended): with no hotel selected, the default nights and persons
    (the least values of the table), the full price range and the full date
    range, the filter returns, in table order, exactly the rows whose nights
    and persons are the defaults, whose price is not null, and whose date is
    not null and not after the midnight that starts the last day of the
    table; it returns the table unchanged exactly when every row is such a
    row. *)
Theorem default_filter_spec (data : DataFrame) (w : Widgets) :
  default_widgets data = Some w ->
  filtered_data data (selections data w) = filter (keep_default data) data /\
  (filtered_data data (selections data w) = data <->
   Forall (fun r => nights r = hd 0%Z (nights_options data) /\
                    persons r = hd 0%Z (persons_options data) /\
                    price r <> None /\
                    exists d dmax,
                      price_date_dt r = Some d /\
                      Pd.Zmax_col (map price_date_dt data) = Some dmax /\
                      (d <= midnight dmax)%Z) data).
Proof.
  intros E.
  destruct (default_widgets_inv data E)
    as [dmin [dmax [Emin [Emax [Hm [Hn [Hp [Hd Hs]]]]]]]].
  assert (Hf : filtered_data data (selections data w) =
               filter (keep_default data) data).
  { rewrite filtered_data_filter. apply filter_ext_in. intros r Hin.
    unfold keep. rewrite (@default_price_test data w r Hin Hs).
    unfold keep_hotel, keep_stay, keep_date, keep_default.
    cbn [selections selected_hotels selected_nights selected_persons
         date_range].
    rewrite Hm, Hn, Hp, Hd, Emax. cbn [andb]. f_equal.
    unfold Pd.Zge_cell, Pd.Zle_cell.
    destruct (price_date_dt r) as [d|] eqn:Ed; [|reflexivity].
    assert (Hge : (midnight dmin <=? d)%Z = true).
    { apply Z.leb_le. apply Z.le_trans with dmin; [apply midnight_le|].
      eapply Zmin_col_le; [eassumption|].
      rewrite <- Ed. now apply in_map. }
    now rewrite Hge. }
  split; [exact Hf|].
  rewrite Hf. etransitivity; [apply filter_id_iff|].
  assert (Hk : forall r,
             keep_default data r = true <->
             nights r = hd 0%Z (nights_options data) /\
             persons r = hd 0%Z (persons_options data) /\
             price r <> None /\
             exists d dmax',
               price_date_dt r = Some d /\
               Pd.Zmax_col (map price_date_dt data) = Some dmax' /\
               (d <= midnight dmax')%Z).
  { intros r. unfold keep_default. rewrite Emax.
    rewrite !andb_true_iff, !Z.eqb_eq.
    destruct (price r), (price_date_dt r) as [d|]; simpl;
      rewrite ?Z.leb_le; split.
    - intros [[[H1 H2] _] H3]. repeat split; trivial; [discriminate|].
      exists d, dmax. auto.
    - intros [H1 [H2 [_ [d' [dm [Ed [Em Hle]]]]]]].
      injection Ed as <-. injection Em as <-. auto.
    - intros [_ H]. discriminate H.
    - intros [_ [_ [_ [d' [dm [Ed _]]]]]]. discriminate Ed.
    - intros [[_ H] _]. discriminate H.
    - intros [_ [_ [H _]]]. now contradict H.
    - intros [_ H]. discriminate H.
    - intros [_ [_ [H _]]]. now contradict H. }
  rewrite !Forall_forall.
  split; intros H r Hin; apply Hk; now apply H.
Qed.

(** C7 (amended) on the table with a one-night and a two-night stay. *)
Lemma default_filter_spec_witness :
  default_widgets Dated.two_stays = Some Dated.two_stays_defaults /\
  filtered_data Dated.two_stays
    (selections Dated.two_stays Dated.two_stays_defaults) =
  filter (keep_default Dated.two_stays) Dated.two_stays.
Proof.
  assert (H : default_widgets Dated.two_stays =
              Some Dated.two_stays_defaults) by reflexivity.
  split; [exact H|].
  exact (proj1 (@default_filter_spec Dated.two_stays
                  Dated.two_stays_defaults H)).
Defined.

(** C7, as stated: on a table that holds stays of one and of two nights,
    the untouched sidebar keeps the one-night row only. *)
Lemma default_filter_drops_rows :
  default_widgets Dated.two_stays = Some Dated.two_stays_defaults /\
  filtered_data Dated.two_stays
    (selections Dated.two_stays Dated.two_stays_defaults) <>
  Dated.two_stays.
Proof. split; [reflexivity | vm_compute; discriminate]. Qed.

(** The untouched date range ends at the midnight that starts the last day:
    a scrape at 18:00 of that day is filtered out. *)
Example default_filter_drops_late_scrape :
  exists w, default_widgets Dated.late_scrape = Some w /\
            List.length (filtered_data Dated.late_scrape
                           (selections Dated.late_scrape w)) = 1%nat.
Proof. eexists. split; reflexivity. Qed.

(** With a single price the slider has no range and the sidebar no
    default. *)
Example default_widgets_single_price :
  default_widgets Dated.single_price = None.
Proof. reflexivity. Qed.

End Defaults.

(** ** Series by date and scrape time *)

Section Series.
Local Open Scope Q_scope.
Import Num PdFacts NumFacts.

Lemma subset_at_none (fd : DataFrame) (st : string) : subset_at fd None st = [].
Proof.
  unfold subset_at. induction fd as [|r fd IH]; simpl; trivial.
  now destruct (price_date_dt r).
Qed.

Lemma subset_at_some (fd : DataFrame) (d : Z) (st : string) :
  subset_at fd (Some d) st = Spec.partition_of fd (d, st).
Proof.
  unfold subset_at, Spec.partition_of. apply filter_ext. intros r.
  now destruct (price_date_dt r).
Qed.

Lemma distinct_dates_dropna (fd : DataFrame) :
  Spec.distinct_dates fd = Pd.dropna (dates_of fd).
Proof. unfold Spec.distinct_dates, dates_of. now rewrite dropna_unique. Qed.

(** The shape shared by the two loops: a record per key of the product
    whose partition is not empty, in the order of the product. *)
Lemma loops_shape (fd : DataFrame) (metric : DataFrame -> Q)
      (dates : list (option Z)) (sts : list string) :
  flat_map (fun date =>
    flat_map (fun st =>
      if empty (subset_at fd date st) then []
      else [mkPoint date st (metric (subset_at fd date st))]) sts) dates =
  map (fun key => mkPoint (Some (fst key)) (snd key)
                    (metric (Spec.partition_of fd key)))
      (filter (fun key => negb (empty (Spec.partition_of fd key)))
              (list_prod (Pd.dropna dates) sts)).
Proof.
  induction dates as [|[d|] dates IH]; cbn [flat_map Pd.dropna list_prod].
  - reflexivity.
  - rewrite IH, filter_app, map_app. f_equal.
    clear IH. induction sts as [|st sts IHs]; cbn [flat_map map filter].
    + reflexivity.
    + rewrite IHs, subset_at_some. cbn [fst snd].
      now destruct (empty (Spec.partition_of fd (d, st))).
  - rewrite IH. clear IH.
    assert (E : flat_map (fun st =>
                  if empty (subset_at fd None st) then []
                  else [mkPoint None st (metric (subset_at fd None st))]) sts
                = []).
    { induction sts as [|st sts IHs]; cbn [flat_map]; trivial.
      now rewrite IHs, subset_at_none. }
    now rewrite E.
Qed.

Lemma revpar_data_shape (fd : DataFrame) :
  revpar_data fd =
  map (fun key =>
         let part := Spec.partition_of fd key in
         mkPoint (Some (fst key)) (snd key)
           (safe_mean (map price part) *
            (calculate_occupancy_rate part / 100)))
      (Spec.series_keys fd).
Proof.
  unfold revpar_data, Spec.series_keys, scrape_times_of.
  rewrite distinct_dates_dropna.
  apply (loops_shape fd
           (fun part => safe_mean (map price part) *
                        (calculate_occupancy_rate part / 100))).
Qed.

Lemma occupancy_data_shape (fd : DataFrame) :
  occupancy_data fd =
  map (fun key => mkPoint (Some (fst key)) (snd key)
                    (calculate_occupancy_rate (Spec.partition_of fd key)))
      (Spec.series_keys fd).
Proof.
  unfold occupancy_data, Spec.series_keys, scrape_times_of.
  rewrite distinct_dates_dropna.
  apply (loops_shape fd calculate_occupancy_rate).
Qed.

(** On rows that all carry a price the product of the rounded mean price
    and the occupancy fraction is already a number of hundredths. *)
Lemma priced_revpar_rounded (df : DataFrame) :
  priced df ->
  safe_mean (map price df) * (calculate_occupancy_rate df / 100) ==
  round2 (safe_mean (map price df) * (calculate_occupancy_rate df / 100)).
Proof.
  intros Hp. destruct (priced_occupancy Hp) as [H100 H0].
  destruct (Nat.eq_dec (total_hotels df) 0) as [E|ne].
  - rewrite (H0 E).
    assert (Z0 : safe_mean (map price df) * (0 / 100) == 0) by field.
    rewrite Z0. symmetry. apply round2_0.
  - rewrite (H100 ne).
    assert (Z1 : safe_mean (map price df) * (100 / 100) ==
                 safe_mean (map price df)) by field.
    rewrite Z1. symmetry. apply safe_mean_rounded.
Qed.

Lemma Forall2_map_same {A B C : Type} (R : B -> C -> Prop)
      (f : A -> B) (g : A -> C) (l : list A) :
  (forall x, In x l -> R (f x) (g x)) -> Forall2 R (map f l) (map g l).
Proof.
  induction l as [|x l IH]; intros H; simpl; constructor.
  - apply H. now left.
  - apply IH. intros y Hy. apply H. now right.
Qed.

Lemma NoDup_list_prod {A B : Type} (l : list A) (l' : list B) :
  NoDup l -> NoDup l' -> NoDup (list_prod l l').
Proof.
  intros Hl Hl'. induction Hl as [|x l Hx Hl IH]; cbn [list_prod].
  - constructor.
  - apply NoDup_app; trivial.
    + clear -Hl'. induction Hl' as [|y l' Hy Hl' IH']; simpl; constructor;
        trivial.
      rewrite in_map_iff. intros [y' [E Hin]]. injection E as <-.
      contradiction.
    + intros [a b] Ha Hb. apply in_map_iff in Ha as [y [E _]].
      injection E as <- <-. apply in_prod_iff in Hb. tauto.
Qed.

Lemma in_series_keys (fd : DataFrame) (d : Z) (st : string) :
  In (d, st) (Spec.series_keys fd) <->
  exists r, In r fd /\ price_date_dt r = Some d /\ scrape_time r = st.
Proof.
  unfold Spec.series_keys. rewrite filter_In, in_prod_iff. split.
  - intros [_ Hne].
    destruct (Spec.partition_of fd (d, st)) as [|r part] eqn:E;
      [discriminate Hne|].
    assert (Hr : In r (Spec.partition_of fd (d, st)))
      by (rewrite E; now left).
    apply filter_In in Hr as [Hin Hr]. cbn [fst snd] in Hr.
    apply andb_true_iff in Hr as [Hd Hs].
    exists r. split; trivial. split.
    + destruct (price_date_dt r); [|discriminate Hd].
      apply Z.eqb_eq in Hd. now subst.
    + now apply String.eqb_eq.
  - intros [r [Hin [Hd Hs]]]. repeat split.
    + apply (@in_unique _ _ Z.eqb_eq), in_dropna.
      rewrite <- Hd. now apply in_map.
    + apply (@in_unique _ _ String.eqb_eq). rewrite <- Hs. now apply in_map.
    + assert (Hr : In r (Spec.partition_of fd (d, st))).
      { apply filter_In. split; trivial. cbn [fst snd].
        rewrite Hd, Hs, Z.eqb_refl, String.eqb_refl. reflexivity. }
      destruct (Spec.partition_of fd (d, st)); [contradiction | reflexivity].
Qed.

(** C4: on the filtered table, the records of [revpar_data] and of
    [occupancy_data] are, in order, the rows of the series of the
    specification: one per pair of a date and a scrape time of the table
    whose partition is not empty, with the occupancy rate and the RevPAR of
    the scalar KPI formulas (rounding included) applied to the partition,
    where the RevPAR is taken from the partition's ADR.  A pair has a record
    exactly when some row of the table has that date and scrape time. *)
Theorem series_by_date_spec (data : DataFrame) (sel : Selections) :
  let fd := filtered_data data sel in
  Forall2 Spec.shows_revpar (revpar_data fd) (Spec.series fd) /\
  Forall2 Spec.shows_occupancy (occupancy_data fd) (Spec.series fd) /\
  NoDup (Spec.series_keys fd) /\
  (forall d st,
     In (d, st) (Spec.series_keys fd) <->
     exists r, In r fd /\ price_date_dt r = Some d /\ scrape_time r = st).
Proof.
  intros fd. split; [|split; [|split]].
  - rewrite revpar_data_shape. unfold Spec.series.
    apply Forall2_map_same. intros key _.
    unfold Spec.shows_revpar, Spec.series_row.
    cbn [point_date point_scrape_time value key_metrics revpar adr
         occupancy_rate Spec.series_date Spec.series_scrape_time
         Spec.series_revpar].
    repeat split. apply priced_revpar_rounded.
    apply priced_filter, filtered_data_priced.
  - rewrite occupancy_data_shape. unfold Spec.series.
    apply Forall2_map_same. intros key _.
    unfold Spec.shows_occupancy, Spec.series_row.
    cbn. repeat split; reflexivity.
  - apply NoDup_filter, NoDup_list_prod.
    + apply (@NoDup_unique _ _ Z.eqb_eq).
    + apply (@NoDup_unique _ _ String.eqb_eq).
  - apply in_series_keys.
Qed.

Example two_scrapes_series :
  map (fun p => (point_date p, point_scrape_time p))
      (revpar_data Samples.two_scrapes) =
  [(Some 1%Z, "Morning"); (Some 1%Z, "Evening")].
Proof. reflexivity. Qed.

(** Off the filtered table, where prices may be missing, the loop's
    product is not a number of hundredths. *)
Example revpar_data_off_filter :
  exists p,
    revpar_data Samples.cheap_one_in_three = [p] /\
    value p == 3333 # 10000 /\
    revpar (key_metrics Samples.cheap_one_in_three) == 33 # 100.
Proof.
  eexists. split; [reflexivity|]. split; vm_compute; reflexivity.
Qed.

End Series.

(** ** Loading and the empty table *)

Section NoData.
Context `{Pandas}.

Lemma read_files_unreadable (files : list CsvFile) :
  Forall unreadable files ->
  snd (read_files files) = [] /\
  List.length (fst (read_files files)) = List.length files.
Proof.
  induction 1 as [|file files [e Hf] _ [IH1 IH2]]; cbn [read_files].
  - now split.
  - destruct (read_files files) as [errors dfs]. rewrite Hf.
    cbn [fst snd] in *. split; [assumption | simpl; congruence].
Qed.

Lemma load_data_messages (files : list CsvFile) :
  fst (load_data files) = fst (read_files files).
Proof.
  unfold load_data. destruct (read_files files) as [errors [|df dfs]];
    reflexivity.
Qed.

Lemma app_cases (files : list CsvFile) (w : Widgets) :
  (snd (load_data files) = [] ->
   app files w = Stopped (fst (load_data files) ++ [no_data_message])) /\
  (snd (load_data files) <> [] ->
   exists view, app files w = Rendered (fst (load_data files)) view).
Proof.
  unfold app. destruct (load_data files) as [errors [|r data]];
    cbn [fst snd empty]; split; intros E; try congruence; eauto.
Qed.

(** C8: when [pd.read_csv] raises on every file, [load_data] returns the
    empty table (after one error message per file); and whenever the loaded
    table is empty the run shows the no-data message and stops, with no
    filtering and no metrics, while a non-empty table is rendered. *)
Theorem no_data_stops (files : list CsvFile) (w : Widgets) :
  (Forall unreadable files ->
   snd (load_data files) = [] /\
   List.length (fst (load_data files)) = List.length files) /\
  (snd (load_data files) = [] ->
   app files w = Stopped (fst (load_data files) ++ [no_data_message])) /\
  (snd (load_data files) <> [] ->
   exists view, app files w = Rendered (fst (load_data files)) view).
Proof.
  split; [|apply app_cases].
  intros Hall. destruct (read_files_unreadable Hall) as [Hdfs Hlen].
  rewrite load_data_messages. split; trivial.
  unfold load_data. destruct (read_files files) as [errors dfs].
  cbn [snd] in Hdfs. now rewrite Hdfs.
Qed.

End NoData.

Example no_files_stops (w : Widgets) :
  @app Samples.coerce_all [] w = Stopped [no_data_message].
Proof. reflexivity. Qed.

Example broken_files_stop (w : Widgets) :
  @app Samples.coerce_all Samples.broken_files w =
  Stopped [ "Error loading csv_files/Oulu_Mor.csv: No columns to parse from file";
            "Error loading csv_files/Oulu_Eve.csv: Error tokenizing data";
            no_data_message ]%string.
Proof. reflexivity. Qed.

(** A file that parses to zero rows also leaves the table empty. *)
Example empty_file_stops (w : Widgets) :
  @app Samples.coerce_all [mkCsvFile "csv_files/Oulu_Mor.csv" (inr [])] w =
  Stopped [no_data_message].
Proof. reflexivity. Qed.

(** ** More on loading *)

Section LoaderFacts.
Context `{Pandas}.

Lemma read_files_app (fs1 fs2 : list CsvFile) :
  read_files (fs1 ++ fs2) =
  (fst (read_files fs1) ++ fst (read_files fs2),
   snd (read_files fs1) ++ snd (read_files fs2)).
Proof.
  induction fs1 as [|file fs1 IH]; cbn [read_files Datatypes.app].
  - cbn [fst snd Datatypes.app]. now destruct (read_files fs2).
  - rewrite IH. destruct (read_files fs1) as [e1 d1].
    destruct (read_files fs2) as [e2 d2]. cbn [fst snd].
    now destruct (read_csv file).
Qed.

Lemma load_data_rows (files : list CsvFile) :
  snd (load_data files) =
  map (clean (combined_dates files)) (combined_rows files).
Proof.
  unfold load_data, combined_dates, combined_rows.
  destruct (read_files files) as [errors [|df dfs]]; reflexivity.
Qed.

Lemma undated_clean (d d' : list string) (t : RawRow * string) :
  undated (clean d t) = undated (clean d' t).
Proof. now destruct t. Qed.

Lemma combined_rows_app (fs1 fs2 : list CsvFile) :
  combined_rows (fs1 ++ fs2) = combined_rows fs1 ++ combined_rows fs2.
Proof.
  unfold combined_rows. rewrite read_files_app. cbn [snd].
  apply concat_app.
Qed.

(** X1: loading a list of files followed by another gives the messages of
    the first followed by those of the second, and as many rows as the two
    together, which agree with the rows of the first followed by those of the
    second in every column but the parsed date and the weekday. *)
Theorem load_data_app (fs1 fs2 : list CsvFile) :
  fst (load_data (fs1 ++ fs2)) = fst (load_data fs1) ++ fst (load_data fs2) /\
  map undated (snd (load_data (fs1 ++ fs2))) =
  map undated (snd (load_data fs1)) ++ map undated (snd (load_data fs2)).
Proof.
  split.
  - rewrite !load_data_messages, read_files_app. reflexivity.
  - rewrite !load_data_rows, combined_rows_app, !map_map, map_app.
    f_equal; apply map_ext; intros t; apply undated_clean.
Qed.

Lemma read_files_readable (files : list CsvFile) :
  snd (read_files (filter readable files)) = snd (read_files files) /\
  fst (read_files (filter readable files)) = [] /\
  List.length (fst (read_files files)) =
  List.length (filter (fun f => negb (readable f)) files).
Proof.
  induction files as [|file files IH]; [repeat split|].
  cbn [filter].
  assert (R : readable file =
              match read_csv file with inr _ => true | inl _ => false end)
    by reflexivity.
  destruct (read_csv file) as [e|df] eqn:E; rewrite R; cbn [negb read_files];
    rewrite ?E; destruct IH as [IH1 [IH2 IH3]];
    destruct (read_files files) as [errors dfs];
    destruct (read_files (filter readable files)) as [errors' dfs'];
    cbn [fst snd] in *; subst; repeat split; simpl; congruence.
Qed.

(** X2: a file on which [pd.read_csv] raises costs one error message and
    nothing else: the table is the one loaded from the readable files alone,
    which load without message. *)
Theorem load_data_skips_unreadable (files : list CsvFile) :
  snd (load_data files) = snd (load_data (filter readable files)) /\
  fst (load_data (filter readable files)) = [] /\
  List.length (fst (load_data files)) =
  List.length (filter (fun f => negb (readable f)) files).
Proof.
  rewrite !load_data_rows, !load_data_messages.
  destruct (read_files_readable files) as [E1 [E2 E3]].
  unfold combined_dates, combined_rows. now rewrite E1.
Qed.

Lemma in_read_files (files : list CsvFile) (t : RawRow * string) :
  In t (List.concat (snd (read_files files))) <->
  exists file rows,
    In file files /\ read_csv file = inr rows /\
    In (fst t) rows /\ snd t = get_scrape_time (path file).
Proof.
  induction files as [|file files IH]; cbn [read_files].
  - simpl. split; [tauto | intros [f [rows [[] _]]]].
  - destruct (read_files files) as [errors dfs]. cbn [snd] in IH.
    destruct (read_csv file) as [e|df] eqn:E; cbn [snd].
    + rewrite IH. split; intros [f [rows [Hin Hr]]].
      * exists f, rows. split; [now right | trivial].
      * destruct Hin as [<-|Hin]; [|eauto].
        destruct Hr as [Er _]. congruence.
    + cbn [List.concat]. rewrite in_app_iff, IH, in_map_iff. split.
      * intros [[r [<- Hr]] | [f [rows [Hin Hr]]]].
        -- exists file, df. cbn [fst snd]. repeat split; auto. now left.
        -- exists f, rows. split; [now right | trivial].
      * intros [f [rows [[<-|Hin] [Er [Hr Hs]]]]].
        -- left. exists (fst t). rewrite E in Er. injection Er as <-.
           split; trivial. destruct t. cbn [fst snd] in *. now rewrite Hs.
        -- right. exists f, rows. auto.
Qed.

Lemma scrape_time_label (filename : string) :
  get_scrape_time filename = "Morning"%string \/
  get_scrape_time filename = "Evening"%string \/
  get_scrape_time filename = "Unknown"%string.
Proof.
  unfold get_scrape_time.
  destruct (PyStr.contains "Mor" (PyStr.basename filename)),
    (PyStr.contains "Eve" (PyStr.basename filename)); auto.
Qed.

Lemma table_dates (files : list CsvFile) :
  map price_date (snd (load_data files)) = combined_dates files.
Proof.
  rewrite load_data_rows, map_map. unfold combined_dates.
  apply map_ext. now intros [raw st].
Qed.

(** X3: the rows of the loaded table are exactly the rows of the readable
    files, cleaned and tagged: each has the scrape time of the name of its
    own file, hence one of the three labels, and the name, stay, raw date and
    coerced numbers of its raw row; its parsed date is the parse of its raw
    date within the date column of the whole table, and its weekday is the
    day name of that date. *)
Theorem load_data_row_origin (files : list CsvFile) :
  let table := snd (load_data files) in
  (forall row, In row table <->
     exists file rows raw,
       In file files /\ read_csv file = inr rows /\ In raw rows /\
       row = clean (map price_date table)
               (raw, get_scrape_time (path file))) /\
  (forall row, In row table ->
     exists file rows raw,
       In file files /\ read_csv file = inr rows /\ In raw rows /\
       scrape_time row = get_scrape_time (path file) /\
       name row = raw_name raw /\
       nights row = raw_nights raw /\ persons row = raw_persons raw /\
       price row = to_numeric (raw_price raw) /\
       review_score row = to_numeric (raw_review_score raw) /\
       distance row = to_numeric (raw_distance raw) /\
       price_date row = raw_price_date raw) /\
  (forall row, In row table ->
     price_date_dt row = to_datetime (map price_date table) (price_date row) /\
     weekday row = option_map day_name (price_date_dt row)) /\
  (forall row, In row table ->
     scrape_time row = "Morning"%string \/
     scrape_time row = "Evening"%string \/
     scrape_time row = "Unknown"%string).
Proof.
  intros table.
  assert (Hin : forall row, In row table <->
     exists file rows raw,
       In file files /\ read_csv file = inr rows /\ In raw rows /\
       row = clean (map price_date table)
               (raw, get_scrape_time (path file))).
  { intros row. unfold table. rewrite table_dates.
    rewrite load_data_rows, in_map_iff. split.
    - intros [[raw st] [<- Ht]]. apply in_read_files in Ht.
      destruct Ht as [file [rows [Hf [Er [Hr Hs]]]]]. cbn [fst snd] in *.
      exists file, rows, raw. subst st. auto.
    - intros [file [rows [raw [Hf [Er [Hr ->]]]]]].
      exists (raw, get_scrape_time (path file)). split; trivial.
      apply in_read_files. exists file, rows. auto. }
  split; [exact Hin|]. split; [|split].
  - intros row Hrow. apply Hin in Hrow.
    destruct Hrow as [file [rows [raw [Hf [Er [Hr ->]]]]]].
    exists file, rows, raw. cbn. repeat split; trivial.
  - intros row Hrow. apply Hin in Hrow.
    destruct Hrow as [file [rows [raw [_ [_ [_ ->]]]]]]. cbn. split; reflexivity.
  - intros row Hrow. apply Hin in Hrow.
    destruct Hrow as [file [rows [raw [_ [_ [_ ->]]]]]].
    cbn [clean scrape_time]. apply scrape_time_label.
Qed.

End LoaderFacts.

(** ** More on scrape times *)

Lemma basename_from_no_sep (f cur : string) :
  PyStr.no_sep f -> PyStr.basename_from cur f = cur.
Proof.
  revert cur. induction f as [|c f IH]; intros cur Hf; simpl; trivial.
  destruct Hf as [Hc Hf]. destruct (Ascii.eqb_spec c "/"); [contradiction|].
  now apply IH.
Qed.

Lemma basename_from_dir (dir f cur : string) :
  PyStr.no_sep f ->
  PyStr.basename_from cur (dir ++ String "/" f) = f.
Proof.
  intros Hf. revert cur. induction dir as [|c dir IH]; intros cur.
  - cbn. now apply basename_from_no_sep.
  - cbn [String.append PyStr.basename_from].
    destruct (Ascii.eqb c "/"); apply IH.
Qed.

(** X4: only the last component of the path counts: a file name without
    separator has the same scrape time under any directory, whatever the
    directory is called. *)
Theorem get_scrape_time_directory (dir f : string) :
  PyStr.no_sep f ->
  get_scrape_time (dir ++ String "/" f) = get_scrape_time f.
Proof.
  intros Hf. unfold get_scrape_time, PyStr.basename.
  now rewrite basename_from_dir, basename_from_no_sep.
Qed.

(** X4 for an evening file in a directory named after the morning. *)
Lemma get_scrape_time_directory_witness :
  PyStr.no_sep "Oulu_Eve.csv" /\
  get_scrape_time ("Mor_files" ++ String "/" "Oulu_Eve.csv") =
  get_scrape_time "Oulu_Eve.csv".
Proof.
  assert (H : PyStr.no_sep "Oulu_Eve.csv")
    by (simpl; repeat split; discriminate).
  split; [exact H | exact (@get_scrape_time_directory "Mor_files" _ H)].
Defined.

(** ** Sorting *)


Section SortByFacts.
Variable A : Type.
Variable leb : A -> A -> bool.

Lemma insert_by_perm (x : A) (l : list A) :
  Permutation (Group.insert_by leb x l) (x :: l).
Proof.
  induction l as [|y l IH]; simpl; [reflexivity|].
  destruct (leb x y); [reflexivity|].
  rewrite IH. apply perm_swap.
Qed.

Lemma sorted_by_perm (l : list A) : Permutation (Group.sorted_by leb l) l.
Proof.
  induction l as [|x l IH]; simpl; [reflexivity|].
  rewrite insert_by_perm. now constructor.
Qed.

Lemma in_sorted_by (x : A) (l : list A) :
  In x (Group.sorted_by leb l) <-> In x l.
Proof.
  split; apply Permutation_in;
    [apply sorted_by_perm | symmetry; apply sorted_by_perm].
Qed.

Lemma NoDup_sorted_by (l : list A) : NoDup l -> NoDup (Group.sorted_by leb l).
Proof.
  apply Permutation_NoDup. symmetry. apply sorted_by_perm.
Qed.

Hypothesis leb_total : forall x y, leb x y = true \/ leb y x = true.

Lemma insert_by_sorted (x : A) (l : list A) :
  Sorted (fun a b => leb a b = true) l ->
  Sorted (fun a b => leb a b = true) (Group.insert_by leb x l).
Proof.
  induction 1 as [|y l Hs IH Hd]; simpl.
  - repeat constructor.
  - destruct (leb x y) eqn:E.
    + repeat constructor; trivial.
    + constructor; trivial.
      assert (Hyx : leb y x = true)
        by (destruct (leb_total x y); congruence).
      destruct Hd as [|z l Hyz]; simpl; [now constructor|].
      destruct (leb x z); now constructor.
Qed.

(** The result of [sorted] is ascending. *)
Lemma sorted_by_sorted (l : list A) :
  Sorted (fun a b => leb a b = true) (Group.sorted_by leb l).
Proof.
  induction l as [|x l IH]; simpl; [constructor|].
  now apply insert_by_sorted.
Qed.

End SortByFacts.

Lemma pd_sorted_by (l : list Z) : Pd.sorted l = Group.sorted_by Z.leb l.
Proof.
  assert (Hi : forall x s, Pd.insert x s = Group.insert_by Z.leb x s).
  { intros x s. induction s as [|y s IH]; simpl; [reflexivity|].
    now rewrite IH. }
  induction l as [|x l IH]; simpl; [reflexivity|].
  now rewrite IH, Hi.
Qed.

Lemma Zleb_total (x y : Z) : (x <=? y)%Z = true \/ (y <=? x)%Z = true.
Proof. rewrite !Z.leb_le. lia. Qed.

(** ** The sidebar options *)

Section Sidebar.
Local Open Scope Q_scope.
Import PdFacts.

Lemma column_options (col : Row -> Z) (data : DataFrame) :
  let options := Pd.sorted (Pd.unique Z.eqb (map col data)) in
  Sorted (fun a b => (a <= b)%Z) options /\
  NoDup options /\
  (forall n, In n options <-> exists r, In r data /\ col r = n).
Proof.
  intros options. unfold options. rewrite pd_sorted_by. split; [|split].
  - pose proof (@sorted_by_sorted _ _ Zleb_total
                  (Pd.unique Z.eqb (map col data))) as Hs.
    revert Hs. generalize (Group.sorted_by Z.leb (Pd.unique Z.eqb (map col data))).
    induction 1 as [|y l Hs IH Hd]; constructor; trivial.
    destruct Hd; constructor. now apply Z.leb_le.
  - apply NoDup_sorted_by, (@NoDup_unique _ _ Z.eqb_eq).
  - intros n. rewrite in_sorted_by, (@in_unique _ _ Z.eqb_eq), in_map_iff.
    split; intros [r [H1 H2]]; eauto.
Qed.

(** X5: the options of the two select boxes are ascending, hold no value
    twice, and are exactly the values of the nights, respectively persons,
    column of the table. *)
Theorem select_box_options (data : DataFrame) :
  (Sorted (fun a b => (a <= b)%Z) (nights_options data) /\
   NoDup (nights_options data) /\
   (forall n, In n (nights_options data) <->
              exists r, In r data /\ nights r = n)) /\
  (Sorted (fun a b => (a <= b)%Z) (persons_options data) /\
   NoDup (persons_options data) /\
   (forall n, In n (persons_options data) <->
              exists r, In r data /\ persons r = n)).
Proof.
  split; [apply (column_options nights) | apply (column_options persons)].
Qed.

Lemma in_hotel_names (data : DataFrame) (h : string) :
  In h (hotel_names data) <-> exists r, In r data /\ name r = Some h.
Proof.
  unfold hotel_names.
  rewrite in_sorted_by, (@in_unique _ _ String.eqb_eq), in_dropna, in_map_iff.
  split; intros [r [H1 H2]]; eauto.
Qed.

(** X6: the hotel options are the names of the table in ascending order,
    each once.  Selecting all of them keeps exactly the rows that have a
    name, whereas on a table without any name the list of options is empty
    and the hotel step keeps every row. *)
Theorem hotel_options (data : DataFrame) :
  Sorted (fun a b => String.leb a b = true) (hotel_names data) /\
  NoDup (hotel_names data) /\
  (forall h, In h (hotel_names data) <->
             exists r, In r data /\ name r = Some h) /\
  (hotel_names data <> [] ->
   filter_hotels (hotel_names data) data =
   filter (fun r => Pd.notna (name r)) data) /\
  (hotel_names data = [] -> filter_hotels (hotel_names data) data = data).
Proof.
  split; [|split; [|split; [|split]]].
  - apply sorted_by_sorted, String.leb_total.
  - apply NoDup_sorted_by, (@NoDup_unique _ _ String.eqb_eq).
  - apply in_hotel_names.
  - intros Hne. unfold filter_hotels.
    destruct (hotel_names data) as [|h hs] eqn:E; [contradiction|].
    rewrite <- E. apply filter_ext_in. intros r Hr.
    destruct (name r) as [n|] eqn:En; simpl; [|reflexivity].
    apply (@mem_iff _ _ String.eqb_eq), in_hotel_names. eauto.
  - intros ->. reflexivity.
Qed.

Lemma fold_left_choice {A : Type} (op : A -> A -> A) (l : list A) (a : A) :
  (forall x y, op x y = x \/ op x y = y) -> In (fold_left op l a) (a :: l).
Proof.
  intros Hop. revert a. induction l as [|b l IH]; intros a; simpl.
  - now left.
  - destruct (IH (op a b)) as [E|Hin].
    + rewrite <- E. destruct (Hop a b) as [->| ->]; auto.
    + auto.
Qed.

Lemma Qmin_choice (x y : Q) : Qmin x y = x \/ Qmin x y = y.
Proof.
  unfold Qmin, GenericMinMax.gmin. destruct (x ?= y); auto.
Qed.

Lemma Qmax_choice (x y : Q) : Qmax x y = x \/ Qmax x y = y.
Proof.
  unfold Qmax, GenericMinMax.gmax. destruct (x ?= y); auto.
Qed.

(** X7: the bounds of the price slider exist exactly when some row has a
    price; they are then prices of the table, the lower one is at most the
    upper one, and every price of the table lies between them. *)
Theorem price_bounds_spec (data : DataFrame) :
  (price_bounds data = None <-> Forall (fun r => price r = None) data) /\
  (forall lo hi, price_bounds data = Some (lo, hi) ->
     lo <= hi /\
     (exists r, In r data /\ price r = Some lo) /\
     (exists r, In r data /\ price r = Some hi) /\
     (forall r p, In r data -> price r = Some p -> lo <= p <= hi)).
Proof.
  unfold price_bounds, price_data. split.
  - rewrite <- (Forall_map price (fun c => c = None)), <- dropna_nil_iff.
    destruct (Pd.dropna (map price data)); split; congruence.
  - intros lo hi E.
    assert (Hin : forall p, In p (Pd.dropna (map price data)) <->
                            exists r, In r data /\ price r = Some p).
    { intros p. rewrite in_dropna, in_map_iff.
      split; intros [r [H1 H2]]; eauto. }
    destruct (Pd.dropna (map price data)) as [|p0 ps]; [discriminate E|].
    injection E as <- <-.
    assert (Hb : forall p, In p (p0 :: ps) ->
                           Pd.Qmin_list p0 ps <= p <= Pd.Qmax_list p0 ps).
    { intros p Hp. split; [now apply Qmin_list_le | now apply Qmax_list_ge]. }
    split; [|split; [|split]].
    + apply Qle_trans with p0; apply Hb; now left.
    + apply Hin. apply fold_left_choice, Qmin_choice.
    + apply Hin. apply fold_left_choice, Qmax_choice.
    + intros r p Hr Hp. apply Hb, Hin. eauto.
Qed.

End Sidebar.

(** ** More on the filters *)

Lemma filter_idem {A : Type} (f : A -> bool) (l : list A) :
  filter f (filter f l) = filter f l.
Proof.
  rewrite filter_filter. apply filter_ext. intros x. now destruct (f x).
Qed.

(** X8: filtering twice with the same selections is filtering once. *)
Theorem filtered_data_idempotent (data : DataFrame) (sel : Selections) :
  filtered_data (filtered_data data sel) sel = filtered_data data sel.
Proof. rewrite !filtered_data_filter. apply filter_idem. Qed.

(** X9: the filters work row by row: the filtered concatenation of two
    tables is the concatenation of the filtered tables. *)
Theorem filtered_data_app (d1 d2 : DataFrame) (sel : Selections) :
  filtered_data (d1 ++ d2) sel = filtered_data d1 sel ++ filtered_data d2 sel.
Proof. rewrite !filtered_data_filter. apply filter_app. Qed.

(** ** More on the metrics *)

Section MetricsFacts.
Local Open Scope Q_scope.
Import Num NumFacts PdFacts.

Lemma Qnat_succ (n : nat) : Qnat (S n) == Qnat n + 1.
Proof.
  unfold Qnat. rewrite Nat2Z.inj_succ, <- Z.add_1_r, inject_Z_plus.
  reflexivity.
Qed.

Lemma occupancy_bounds (df : DataFrame) :
  0 <= calculate_occupancy_rate df <= 100.
Proof.
  rewrite calculate_occupancy_rate_spec. unfold Spec.occupancy.
  pose proof (priced_le_distinct df) as Hle.
  destruct (Spec.distinct_hotels df) as [|h0 hs]; [split; discriminate|].
  assert (Ht : (0 < List.length (h0 :: hs))%nat) by (simpl; lia).
  apply (@round2_bounds 0 100), (ratio_bounds Hle Ht).
Qed.

(** X11: when no price is negative, the RevPAR metric lies between 0 and
    the ADR metric. *)
Theorem revpar_between_zero_and_adr (fd : DataFrame) :
  (forall r p, In r fd -> price r = Some p -> 0 <= p) ->
  0 <= revpar (key_metrics fd) <= adr (key_metrics fd).
Proof.
  intros Hp. cbn [key_metrics revpar adr].
  pose proof (occupancy_bounds fd) as [O1 O2].
  assert (Ha : 0 <= safe_mean (map price fd)).
  { unfold safe_mean. destruct (Pd.dropna (map price fd)) as [|v vs] eqn:E;
      [discriminate|].
    rewrite <- round2_0. apply round2_mono.
    assert (Hm : forall x, In x (v :: vs) -> 0 <= x <= x).
    { intros x Hx. rewrite <- E in Hx. apply in_dropna, in_map_iff in Hx.
      destruct Hx as [r [Er Hr]]. split; [eapply Hp; eauto | apply Qle_refl]. }
    assert (Hs : Qnat (List.length (v :: vs)) * 0 <= sum (v :: vs)).
    { clear E. induction (v :: vs) as [|x l IH].
      - change (Qnat (List.length (@nil Q))) with 0. simpl. lra.
      - cbn [List.length]. rewrite Qnat_succ.
        change (sum (x :: l)) with (x + sum l).
        destruct (Hm x (or_introl eq_refl)) as [H1 _].
        assert (H2 : Qnat (List.length l) * 0 <= sum l)
          by (apply IH; intros y Hy; apply Hm; now right).
        lra. }
    unfold mean. fold (Qnat (List.length (v :: vs))).
    apply Qle_shift_div_l; [apply Qnat_pos; simpl; lia | lra]. }
  set (a := safe_mean (map price fd)) in *.
  set (o := calculate_occupancy_rate fd) in *.
  split.
  - rewrite <- round2_0. apply round2_mono.
    assert (E : a * (o / 100) == a * o / 100) by field.
    rewrite E. apply Qle_shift_div_l; [reflexivity | nra].
  - apply Qle_trans with (round2 a).
    + apply round2_mono.
      assert (E : a * (o / 100) == a * o / 100) by field.
      rewrite E. apply Qle_shift_div_r; [reflexivity | nra].
    + unfold a. rewrite safe_mean_rounded. apply Qle_refl.
Qed.

(** X11 on the scenario table. *)
Lemma revpar_between_zero_and_adr_witness :
  0 <= revpar (key_metrics Samples.scenario) <= adr (key_metrics Samples.scenario).
Proof.
  apply revpar_between_zero_and_adr.
  intros r p Hr Hp. simpl in Hr.
  destruct Hr as [<-|[<-|[<-|[]]]]; simpl in Hp; try discriminate Hp;
    injection Hp as <-; discriminate.
Defined.

(** X12: on a filtered table in which some row carries a hotel name, the
    RevPAR metric is the ADR metric. *)
Theorem filtered_revpar_is_adr (data : DataFrame) (sel : Selections) :
  total_hotels (filtered_data data sel) <> 0%nat ->
  revpar (key_metrics (filtered_data data sel)) ==
  adr (key_metrics (filtered_data data sel)).
Proof.
  intros Hn. cbn [key_metrics revpar adr].
  destruct (priced_occupancy (filtered_data_priced data sel)) as [H100 _].
  rewrite (H100 Hn).
  assert (E : safe_mean (map price (filtered_data data sel)) * (100 / 100) ==
              safe_mean (map price (filtered_data data sel))) by field.
  rewrite E. apply safe_mean_rounded.
Qed.

(** X12 on the table with a one-night and a two-night stay. *)
Lemma filtered_revpar_is_adr_witness :
  revpar (key_metrics (filtered_data Samples.two_stays Samples.day_one)) ==
  adr (key_metrics (filtered_data Samples.two_stays Samples.day_one)).
Proof.
  apply filtered_revpar_is_adr. vm_compute. discriminate.
Defined.

Lemma nunique_ext {A : Type} (eqb : A -> A -> bool) (l l' : list (option A)) :
  (forall x y, eqb x y = true <-> x = y) ->
  (forall c, In c l <-> In c l') ->
  Pd.nunique eqb l = Pd.nunique eqb l'.
Proof.
  intros Heq Hin. unfold Pd.nunique.
  apply Permutation_length, NoDup_Permutation.
  - apply (@NoDup_unique _ _ Heq).
  - apply (@NoDup_unique _ _ Heq).
  - intros x. rewrite !(@in_unique _ _ Heq), !in_dropna. apply Hin.
Qed.

Lemma hotel_counts_ext (df df' : DataFrame) :
  (forall r, In r df <-> In r df') ->
  empty df = empty df' /\
  total_hotels df = total_hotels df' /\
  hotels_with_prices df = hotels_with_prices df'.
Proof.
  intros Hin. split; [|split].
  - destruct df as [|r df], df' as [|r' df']; trivial.
    + destruct (proj2 (Hin r') (or_introl eq_refl)).
    + destruct (proj1 (Hin r) (or_introl eq_refl)).
  - apply (@nunique_ext _ _ _ _ String.eqb_eq). intros c. rewrite !in_map_iff.
    split; intros [r [E Hr]]; exists r; split; trivial; now apply Hin.
  - apply (@nunique_ext _ _ _ _ String.eqb_eq). intros c. rewrite !in_map_iff.
    split; intros [r [E Hr]]; exists r; split; trivial;
      apply filter_In in Hr as [Hr Hp]; apply filter_In; split; trivial;
      now apply Hin.
Qed.

(** X14: the occupancy rate depends only on which rows occur in the subset,
    not on their order or on how often each occurs. *)
Theorem occupancy_rate_of_row_set (df df' : DataFrame) :
  (forall r, In r df <-> In r df') ->
  calculate_occupancy_rate df = calculate_occupancy_rate df'.
Proof.
  intros Hin. destruct (@hotel_counts_ext _ _ Hin) as [He [Ht Hw]].
  unfold calculate_occupancy_rate. now rewrite He, Ht, Hw.
Qed.

(** X14 for a table and the table loaded twice. *)
Lemma occupancy_rate_of_row_set_witness :
  calculate_occupancy_rate Samples.scenario =
  calculate_occupancy_rate (Samples.scenario ++ Samples.scenario).
Proof.
  apply occupancy_rate_of_row_set.
  intros r. rewrite in_app_iff. tauto.
Defined.

End MetricsFacts.

(** ** More on the series *)

Section SeriesFacts.
Local Open Scope Q_scope.
Import Num NumFacts PdFacts.

(** X15: the RevPAR chart and the occupancy chart have the same points, in
    the same order, on any table; and every point has a date: the rows
    without date give no point. *)
Theorem charts_same_points (fd : DataFrame) :
  map (fun p => (point_date p, point_scrape_time p)) (revpar_data fd) =
  map (fun p => (point_date p, point_scrape_time p)) (occupancy_data fd) /\
  (forall p, In p (revpar_data fd) ->
     exists d r, point_date p = Some d /\ In r fd /\
                 price_date_dt r = Some d /\
                 scrape_time r = point_scrape_time p).
Proof.
  rewrite revpar_data_shape, occupancy_data_shape, !map_map. split.
  - reflexivity.
  - intros p Hp. apply in_map_iff in Hp as [[d st] [<- Hk]].
    apply in_series_keys in Hk as [r [Hr [Hd Hs]]].
    exists d, r. cbn. auto.
Qed.

End SeriesFacts.

(** ** The grouped means *)

Section LexOrder.
Variables A B : Type.
Variables (ltbA eqbA : A -> A -> bool) (lebB : B -> B -> bool).
Hypothesis trichotomy :
  forall a b, ltbA a b = true \/ eqbA a b = true \/ ltbA b a = true.
Hypothesis eqbA_sym : forall a b, eqbA a b = true -> eqbA b a = true.
Hypothesis lebB_total : forall x y, lebB x y = true \/ lebB y x = true.

Lemma lex_leb_total (x y : A * B) :
  Group.lex_leb ltbA eqbA lebB x y = true \/
  Group.lex_leb ltbA eqbA lebB y x = true.
Proof.
  unfold Group.lex_leb.
  destruct (trichotomy (fst x) (fst y)) as [H|[H|H]].
  - left. now rewrite H.
  - rewrite H, (eqbA_sym H).
    destruct (lebB_total (snd x) (snd y)) as [L|L]; rewrite L;
      [left | right]; apply orb_true_r.
  - right. now rewrite H.
Qed.
End LexOrder.

Lemma date_key_leb_total (x y : Z * string) :
  Group.lex_leb Z.ltb Z.eqb String.leb x y = true \/
  Group.lex_leb Z.ltb Z.eqb String.leb y x = true.
Proof.
  apply lex_leb_total.
  - intros a b. rewrite !Z.ltb_lt, Z.eqb_eq. lia.
  - intros a b. rewrite !Z.eqb_eq. congruence.
  - apply String.leb_total.
Qed.

Lemma weekday_key_leb_total (x y : string * string) :
  Group.lex_leb String.ltb String.eqb String.leb x y = true \/
  Group.lex_leb String.ltb String.eqb String.leb y x = true.
Proof.
  apply lex_leb_total.
  - intros a b. unfold String.ltb.
    rewrite (String.compare_antisym b a).
    destruct (String.compare a b) eqn:E; simpl; auto.
    right. left. apply String.eqb_eq. now apply String.compare_eq_iff.
  - intros a b. rewrite !String.eqb_eq. congruence.
  - apply String.leb_total.
Qed.

Lemma pair_eqb_eq {A B : Type} (eqbA : A -> A -> bool) (eqbB : B -> B -> bool) :
  (forall a b, eqbA a b = true <-> a = b) ->
  (forall a b, eqbB a b = true <-> a = b) ->
  forall x y, Group.pair_eqb eqbA eqbB x y = true <-> x = y.
Proof.
  intros HA HB [a b] [a' b']. unfold Group.pair_eqb. cbn [fst snd].
  rewrite andb_true_iff, HA, HB. split; [intros [-> ->] | intros E]; trivial.
  injection E as -> ->. auto.
Qed.

Section GroupByFacts.
Import PdFacts.
Variable K : Type.
Variables keqb kleb : K -> K -> bool.
Variable key : Row -> option K.
Hypothesis keqb_eq : forall x y, keqb x y = true <-> x = y.
Hypothesis kleb_total : forall x y, kleb x y = true \/ kleb y x = true.

Lemma in_group (fd : DataFrame) (k : K) (r : Row) :
  In r (Group.group keqb key fd k) <-> In r fd /\ key r = Some k.
Proof.
  unfold Group.group. rewrite filter_In, (@cell_eq_iff _ _ keqb_eq).
  split; intros [Hr Hk]; split; trivial.
  - destruct Hk as [v [E1 E2]]. congruence.
  - eauto.
Qed.

Lemma in_group_keys (fd : DataFrame) (k : K) :
  In k (Group.group_keys keqb kleb key fd) <->
  exists r, In r fd /\ key r = Some k.
Proof.
  unfold Group.group_keys.
  rewrite in_sorted_by, (@in_unique _ _ keqb_eq), in_dropna, in_map_iff.
  split; intros [r [H1 H2]]; eauto.
Qed.

(** What [groupby(...)['price'].mean()] returns, whatever the key. *)
Lemma groupby_price_mean_spec (fd : DataFrame) :
  let result := Group.groupby_price_mean keqb kleb key fd in
  Sorted (fun a b => kleb a b = true) (map fst result) /\
  NoDup (map fst result) /\
  (forall k, In k (map fst result) <-> exists r, In r fd /\ key r = Some k) /\
  (forall k v, In (k, v) result ->
     v = Group.mean_opt (map price (Group.group keqb key fd k)) /\
     Group.group keqb key fd k <> []) /\
  (forall r, In r fd -> key r = None ->
     forall k v, In (k, v) result -> ~ In r (Group.group keqb key fd k)).
Proof.
  intros result. unfold result, Group.groupby_price_mean.
  rewrite map_map. cbn [fst]. rewrite map_id.
  split; [|split; [|split; [|split]]].
  - apply sorted_by_sorted, kleb_total.
  - apply NoDup_sorted_by, (@NoDup_unique _ _ keqb_eq).
  - apply in_group_keys.
  - intros k v Hin. apply in_map_iff in Hin as [k' [E Hk]].
    injection E as -> <-. split; trivial.
    apply in_group_keys in Hk as [r [Hr Hkey]].
    intros En. assert (Hg : In r (Group.group keqb key fd k))
      by (apply in_group; auto).
    rewrite En in Hg. contradiction.
  - intros r Hr Hnone k v _ Hg. apply in_group in Hg as [_ Hk]. congruence.
Qed.

End GroupByFacts.

Section Charts.
Local Open Scope Q_scope.
Import Num NumFacts PdFacts.

Lemma date_key_eqb_eq (x y : Z * string) :
  Group.pair_eqb Z.eqb String.eqb x y = true <-> x = y.
Proof. apply pair_eqb_eq; [apply Z.eqb_eq | apply String.eqb_eq]. Qed.

Lemma weekday_key_eqb_eq (x y : string * string) :
  Group.pair_eqb String.eqb String.eqb x y = true <-> x = y.
Proof. apply pair_eqb_eq; apply String.eqb_eq. Qed.

Lemma date_key_iff (r : Row) (d : Z) (st : string) :
  date_key r = Some (d, st) <-> price_date_dt r = Some d /\ scrape_time r = st.
Proof.
  unfold date_key. destruct (price_date_dt r); split.
  - intros E. injection E as -> ->. auto.
  - intros [E <-]. now injection E as ->.
  - discriminate.
  - intros [E _]. discriminate E.
Qed.

Lemma weekday_key_iff (r : Row) (day st : string) :
  weekday_key r = Some (day, st) <-> weekday r = Some day /\ scrape_time r = st.
Proof.
  unfold weekday_key. destruct (weekday r); split.
  - intros E. injection E as -> ->. auto.
  - intros [E <-]. now injection E as ->.
  - discriminate.
  - intros [E _]. discriminate E.
Qed.

Lemma date_group_partition (fd : DataFrame) (k : Z * string) :
  Group.group (Group.pair_eqb Z.eqb String.eqb) date_key fd k =
  Spec.partition_of fd k.
Proof.
  unfold Group.group, Spec.partition_of. apply filter_ext. intros r.
  unfold date_key. destruct k as [d st]. destruct (price_date_dt r); reflexivity.
Qed.

(** X16: the price chart has one row for every pair of a date and a scrape
    time that occurs in a row with a date, in ascending order of the pair
    and without repetition; its price is the mean, not rounded, of the
    non-null prices of the rows of that date and scrape time, missing when
    they have none. *)
Theorem price_by_date_spec (fd : DataFrame) :
  let keys := map fst (price_by_date fd) in
  Sorted (fun a b => Group.lex_leb Z.ltb Z.eqb String.leb a b = true) keys /\
  NoDup keys /\
  (forall d st, In (d, st) keys <->
     exists r, In r fd /\ price_date_dt r = Some d /\ scrape_time r = st) /\
  (forall k v, In (k, v) (price_by_date fd) ->
     v = Group.mean_opt (map price (Spec.partition_of fd k)) /\
     Spec.partition_of fd k <> []).
Proof.
  intros keys.
  destruct (@groupby_price_mean_spec _ _ _ date_key date_key_eqb_eq
              date_key_leb_total fd) as [Hs [Hn [Hk [Hv _]]]].
  fold (price_by_date fd) in Hs, Hn, Hk, Hv. fold keys in Hs, Hn, Hk.
  split; [|split; [|split]]; trivial.
  - intros d st. rewrite Hk.
    split; intros [r [Hr Hd]]; exists r; split; trivial;
      now apply date_key_iff.
  - intros k v Hin. apply Hv in Hin. now rewrite date_group_partition in Hin.
Qed.

(** X17: the price chart and the RevPAR chart show the same pairs of a date
    and a scrape time, the former in ascending order. *)
Theorem price_chart_points_are_revpar_points (fd : DataFrame) :
  Permutation
    (map (fun row => (Some (fst (fst row)), snd (fst row))) (price_by_date fd))
    (map (fun p => (point_date p, point_scrape_time p)) (revpar_data fd)).
Proof.
  rewrite revpar_data_shape, map_map. cbn [point_date point_scrape_time].
  rewrite <- (map_map fst (fun k : Z * string => (Some (fst k), snd k))).
  apply Permutation_map.
  destruct (@groupby_price_mean_spec _ _ _ date_key date_key_eqb_eq
              date_key_leb_total fd) as [_ [Hn [Hk _]]].
  fold (price_by_date fd) in Hn, Hk.
  apply NoDup_Permutation; trivial.
  - apply NoDup_filter, NoDup_list_prod.
    + apply (@NoDup_unique _ _ Z.eqb_eq).
    + apply (@NoDup_unique _ _ String.eqb_eq).
  - intros [d st]. rewrite Hk, in_series_keys.
    split; intros [r [Hr Hd]]; exists r; split; trivial;
      now apply date_key_iff.
Qed.

(** X18: the weekday chart has one bar for every pair of a weekday and a
    scrape time that occurs in a row with a weekday, in ascending
    (alphabetical) order of the pair and without repetition; its price is the
    mean, not rounded, of the non-null prices of the rows of that weekday and
    scrape time; a row without weekday is in no bar. *)
Theorem weekday_data_spec (fd : DataFrame) :
  let keys := map fst (weekday_data fd) in
  Sorted (fun a b =>
            Group.lex_leb String.ltb String.eqb String.leb a b = true) keys /\
  NoDup keys /\
  (forall day st, In (day, st) keys <->
     exists r, In r fd /\ weekday r = Some day /\ scrape_time r = st) /\
  (forall day st v, In ((day, st), v) (weekday_data fd) ->
     v = Group.mean_opt
           (map price
              (filter (fun r => Pd.cell_eq String.eqb (weekday r) (Some day) &&
                                String.eqb (scrape_time r) st) fd))).
Proof.
  intros keys.
  destruct (@groupby_price_mean_spec _ _ _ weekday_key weekday_key_eqb_eq
              weekday_key_leb_total fd) as [Hs [Hn [Hk [Hv _]]]].
  fold (weekday_data fd) in Hs, Hn, Hk, Hv. fold keys in Hs, Hn, Hk.
  split; [|split; [|split]]; trivial.
  - intros day st. rewrite Hk.
    split; intros [r [Hr Hd]]; exists r; split; trivial;
      now apply weekday_key_iff.
  - intros day st v Hin. apply Hv in Hin as [-> _]. f_equal. f_equal.
    unfold Group.group. apply filter_ext. intros r.
    unfold weekday_key. destruct (weekday r); reflexivity.
Qed.

Lemma named_total_hotels (df : DataFrame) (r : Row) :
  In r df -> name r <> None -> total_hotels df <> 0%nat.
Proof.
  intros Hr Hn E. unfold total_hotels in E.
  apply (@nunique_zero_iff _ String.eqb) in E.
  rewrite Forall_map, Forall_forall in E. now apply Hn, E.
Qed.

End Charts.

(** ** The values of the metrics

    The script computes in binary floating point.  Next to a decimal tie its
    rounding need not go the way of [Num.round2], and its sums carry a
    rounding error.  The values of the metrics are therefore stated as
    whole numbers of hundredths within half a hundredth of the exact
    quantity, both up to a margin for the floating-point error, which is
    below the margin on columns of the stated magnitude; which of two
    neighbouring hundredths is taken at a tie is left open. *)

Section MetricValues.
Local Open Scope Q_scope.
Import Num NumFacts PdFacts.

Lemma exact_hundredths (e x : Q) (k : Z) :
  0 <= e -> x == inject_Z k / 100 -> hundredths e x.
Proof.
  intros He E. exists k. rewrite E.
  setoid_replace (inject_Z k / 100 - inject_Z k / 100) with 0 by ring.
  exact He.
Qed.

Lemma round2_grid (e q : Q) : 0 <= e -> hundredths e (round2 q).
Proof.
  intros He. now apply (@exact_hundredths e _ (rint (q * 100))).
Qed.

Lemma zero_grid (e : Q) : 0 <= e -> hundredths e 0.
Proof. intros He. now apply (@exact_hundredths e _ 0%Z). Qed.

Lemma rint_near (x : Q) : Qabs (inject_Z (rint x) - x) <= 1 # 2.
Proof.
  apply Qabs_Qle_condition.
  pose proof (floor_frac x) as [F0 F1].
  destruct (rint_cases x) as [[H R] | [[H R] | [H R]]]; rewrite R;
    try destruct (Z.even (Qfloor x));
    rewrite ?inject_Z_plus; change (inject_Z 1) with 1; split; lra.
Qed.

Lemma round2_near (q : Q) : Qabs (round2 q - q) <= 1 # 200.
Proof.
  pose proof (rint_near (q * 100)) as H.
  apply Qabs_Qle_condition in H as [H1 H2].
  apply Qabs_Qle_condition. unfold round2.
  set (k := inject_Z (rint (q * 100))) in *.
  assert (E : k / 100 == k * (1 # 100)) by (unfold Qdiv; reflexivity).
  rewrite E. split; lra.
Qed.

Lemma margin (x e : Q) : Qabs x <= 1 # 200 -> 0 <= e -> Qabs x <= (1 # 200) + e.
Proof. intros H He. lra. Qed.

(** C1 (amended): the two numbers that the occupancy rate divides are the
    number of distinct hotels with at least one non-null price and the number
    of distinct hotels.  The rate is 0 when there is no distinct hotel;
    otherwise it is, up to a margin of 10^-9, a whole number of hundredths
    within half a hundredth of the first number divided by the second, times
    100.  It lies in [0, 100], is 0 whenever no hotel has a price, and is
    100 when every hotel has one. *)
Theorem occupancy_rate_spec (df : DataFrame) :
  let h := List.length (Spec.priced_hotels df) in
  let t := List.length (Spec.distinct_hotels df) in
  hotels_with_prices df = h /\ total_hotels df = t /\
  (t = 0%nat -> calculate_occupancy_rate df = 0) /\
  (t <> 0%nat ->
   hundredths (1 # 1000000000) (calculate_occupancy_rate df) /\
   Qabs (calculate_occupancy_rate df - Qnat h / Qnat t * 100) <=
   (1 # 200) + (1 # 1000000000)) /\
  0 <= calculate_occupancy_rate df <= 100 /\
  (h = 0%nat -> calculate_occupancy_rate df == 0) /\
  (h = t -> t <> 0%nat -> calculate_occupancy_rate df == 100).
Proof.
  intros h t.
  split; [apply hotels_with_prices_spec|].
  split; [apply total_hotels_spec|].
  split; [|split; [|split; [apply occupancy_bounds|]]].
  - intros Ht. rewrite calculate_occupancy_rate_spec. unfold Spec.occupancy.
    fold t in Ht. unfold t in Ht. apply length_zero_iff_nil in Ht.
    now rewrite Ht.
  - intros Ht. rewrite calculate_occupancy_rate_spec. unfold Spec.occupancy.
    fold h t. destruct (Spec.distinct_hotels df) eqn:D;
      [now contradict Ht|].
    split; [apply round2_grid; discriminate|].
    apply margin; [apply round2_near | discriminate].
  - rewrite calculate_occupancy_rate_spec. unfold Spec.occupancy. fold h t.
    destruct (Spec.distinct_hotels df) eqn:D.
    + split; [reflexivity | intros _ Ht; now contradict Ht].
    + split.
      * intros ->. change (Qnat 0) with 0.
        assert (E : 0 / Qnat t * 100 == 0) by (unfold Qdiv; ring).
        rewrite E. apply round2_0.
      * intros -> Ht.
        assert (Tpos : 0 < Qnat t) by (apply Qnat_pos; lia).
        assert (E : Qnat t / Qnat t * 100 == 100) by (field; lra).
        rewrite E. apply round2_100.
Qed.

Lemma safe_mean_value (series : list (option Q)) :
  (Spec.all_null series -> safe_mean series = 0) /\
  (~ Spec.all_null series ->
   sum (map Qabs (Pd.dropna series)) <= 1000000000 ->
   hundredths (1 # 100000) (safe_mean series) /\
   Qabs (safe_mean series - Spec.mean_notna series) <=
   (1 # 200) + (1 # 100000)).
Proof.
  unfold safe_mean, Spec.all_null.
  rewrite <- mean_dropna, <- dropna_nil_iff.
  destruct (Pd.dropna series) as [|v vs].
  - split; [reflexivity | intros H; now contradict H].
  - split; [discriminate|]. intros _ _.
    split; [apply round2_grid; discriminate|].
    apply margin; [apply round2_near | discriminate].
Qed.

(** C2 (amended): the average review score and the ADR are 0 when every
    value of their column is null.  Otherwise, on a column whose absolute
    values sum to at most 10^9, each is, up to a margin of 10^-5, a whole
    number of hundredths within half a hundredth of the mean of the non-null
    values.  So each is also 0 on non-null values whose mean rounds to 0. *)
Theorem mean_metrics_spec (fd : DataFrame) :
  let m := key_metrics fd in
  let scores := map review_score fd in
  let prices := map price fd in
  ((Spec.all_null scores -> avg_review_score m = 0) /\
   (~ Spec.all_null scores ->
    sum (map Qabs (Pd.dropna scores)) <= 1000000000 ->
    hundredths (1 # 100000) (avg_review_score m) /\
    Qabs (avg_review_score m - Spec.mean_notna scores) <=
    (1 # 200) + (1 # 100000))) /\
  ((Spec.all_null prices -> adr m = 0) /\
   (~ Spec.all_null prices ->
    sum (map Qabs (Pd.dropna prices)) <= 1000000000 ->
    hundredths (1 # 100000) (adr m) /\
    Qabs (adr m - Spec.mean_notna prices) <=
    (1 # 200) + (1 # 100000))).
Proof.
  intros m scores prices. split.
  - exact (safe_mean_value scores).
  - exact (safe_mean_value prices).
Qed.

Example scenario_mean_metrics :
  let prices := map price Samples.scenario in
  ~ Spec.all_null prices /\
  sum (map Qabs (Pd.dropna prices)) <= 1000000000 /\
  Qabs (adr (key_metrics Samples.scenario) - Spec.mean_notna prices) <=
  (1 # 200) + (1 # 100000).
Proof.
  assert (Hn : ~ Spec.all_null (map price Samples.scenario))
    by (intros H; inversion H; discriminate).
  assert (Hs : sum (map Qabs (Pd.dropna (map price Samples.scenario))) <=
               1000000000) by (vm_compute; discriminate).
  split; [exact Hn|]. split; [exact Hs|].
  now apply (proj2 (safe_mean_value (map price Samples.scenario))).
Qed.

Lemma safe_mean_grid (e : Q) (series : list (option Q)) :
  0 <= e -> hundredths e (safe_mean series).
Proof.
  intros He. unfold safe_mean. destruct (Pd.dropna series);
    [now apply zero_grid | now apply round2_grid].
Qed.

Lemma occupancy_rate_grid (e : Q) (df : DataFrame) :
  0 <= e -> hundredths e (calculate_occupancy_rate df).
Proof.
  intros He. unfold calculate_occupancy_rate.
  destruct (empty df); [now apply zero_grid|].
  destruct (0 <? total_hotels df)%nat;
    [now apply round2_grid | now apply zero_grid].
Qed.


Lemma Exists_named_total_hotels (df : DataFrame) :
  Exists (fun r => name r <> None) df -> total_hotels df <> 0%nat.
Proof.
  intros He Ht. unfold total_hotels in Ht.
  apply (@nunique_zero_iff _ String.eqb) in Ht.
  rewrite Forall_map in Ht. apply Exists_exists in He as [r [Hr Hn]].
  rewrite Forall_forall in Ht. now apply Hn, Ht.
Qed.

Lemma Forall_nameless_total_hotels (df : DataFrame) :
  Forall (fun r => name r = None) df -> total_hotels df = 0%nat.
Proof.
  intros Hf. unfold total_hotels.
  apply (@nunique_zero_iff _ String.eqb). now rewrite Forall_map.
Qed.

(** C9 (amended): the price step is always applied, so every row of the
    filtered table has a non-null price.  Hence the occupancy rate of the
    filtered table is 100 when some row of it carries a hotel name and 0
    when none does; and on a non-empty filtered table no price is dropped
    from the mean, so that the ADR is not the zero default: when the
    absolute prices sum to at most 10^9 it is, up to a margin of 10^-5, a
    whole number of hundredths within half a hundredth of the mean price. *)
Theorem filtered_rows_priced (data : DataFrame) (sel : Selections) :
  let fd := filtered_data data sel in
  Forall (fun r => price r <> None) fd /\
  (Exists (fun r => name r <> None) fd ->
   calculate_occupancy_rate fd == 100) /\
  (Forall (fun r => name r = None) fd -> calculate_occupancy_rate fd = 0) /\
  (fd <> [] ->
   List.length (Pd.dropna (map price fd)) = List.length fd /\
   Pd.dropna (map price fd) <> [] /\
   (sum (map Qabs (Pd.dropna (map price fd))) <= 1000000000 ->
    hundredths (1 # 100000) (adr (key_metrics fd)) /\
    Qabs (adr (key_metrics fd) - Spec.mean_notna (map price fd)) <=
    (1 # 200) + (1 # 100000))).
Proof.
  intros fd. pose proof (filtered_data_priced data sel) as Hp. fold fd in Hp.
  destruct (priced_occupancy Hp) as [H100 H0].
  split; [|split; [|split]].
  - revert Hp. unfold priced. apply Forall_impl. intros r H E.
    rewrite E in H. discriminate H.
  - intros He. now apply H100, Exists_named_total_hotels.
  - intros Hf. now apply H0, Forall_nameless_total_hotels.
  - intros Hne.
    assert (Hlen : List.length (Pd.dropna (map price fd)) = List.length fd)
      by apply (dropna_all_notna price Hp).
    assert (Hd : Pd.dropna (map price fd) <> []).
    { intros E. rewrite E in Hlen. symmetry in Hlen.
      apply length_zero_iff_nil in Hlen. contradiction. }
    split; trivial. split; trivial.
    apply (safe_mean_value (map price fd)).
    unfold Spec.all_null. now rewrite <- dropna_nil_iff.
Qed.

(** C9, as stated: on a table of two priced rows without hotel name, the
    untouched sidebar keeps both rows, and the occupancy rate of the
    result is 0. *)
Lemma filtered_nameless_occupancy :
  default_widgets Dated.nameless_pair = Some Dated.nameless_pair_defaults /\
  filtered_data Dated.nameless_pair
    (selections Dated.nameless_pair Dated.nameless_pair_defaults) <> [] /\
  ~ calculate_occupancy_rate
      (filtered_data Dated.nameless_pair
         (selections Dated.nameless_pair Dated.nameless_pair_defaults)) == 100.
Proof.
  split; [reflexivity|]. split; vm_compute; discriminate.
Qed.



End MetricValues.
